(** * OZZY voice front end: the call-session controller of [App.tsx]

    A shallow embedding of the three variants of the React component [App]
    (the boolean variant and the enum variant of [src/src/App.tsx], and the
    multi-flag variant of [src/unnamed/part_000]).

    How the component is read:
    - a handler is a closure over the state of the render that created it; it
      reads that snapshot and writes through the [useState] setters, every one
      of which is called with a constant ([setX(v)], never [setX(f)]).  A
      handler is therefore a function of the snapshot that produces, in
      program order, the setter calls and the calls on external collaborators
      (the SDK client, [fetch], [getUserMedia], the DOM event);
    - [await] suspends on an external outcome, which is an argument ([Env]);
    - [try]/[catch] and early [return] are the completions of the statement
      list: normal, return, throw;
    - [console.log]/[console.error] are left out: they touch neither the
      state nor a collaborator. *)

From Stdlib Require Import Bool List String ZArith Lia Floats Uint63.
Import ListNotations.
Local Open Scope string_scope.
Local Open Scope list_scope.
Local Open Scope bool_scope.

Set Implicit Arguments.

(** ** JavaScript values and built-ins used by the component *)

Module JS.

(** [ToBoolean] of a property that is a string when present:
    [undefined] and [''] are falsy. *)
Definition truthy (v : option string) : bool :=
  match v with
  | None => false
  | Some s => negb (String.eqb s "")
  end.

(** [Response.ok]: the status is in the range 200-299. *)
Definition response_ok (status : Z) : bool :=
  ((200 <=? status) && (status <=? 299))%Z.

(** JavaScript numbers are IEEE 754 binary64 values, as Rocq's primitive
    floats are. *)
Definition Math_abs (x : float) : float := PrimFloat.abs x.

(** [Math.min(x, y)]: NaN if either is NaN, and [-0] is below [+0]. *)
Definition Math_min (x y : float) : float :=
  if PrimFloat.is_nan x || PrimFloat.is_nan y then nan
  else if PrimFloat.ltb x y then x
  else if PrimFloat.ltb y x then y
  else if PrimFloat.is_zero x && PrimFloat.get_sign x then x
  else y.

(** [array.length] as a number (exact below 2^53). *)
Definition length_number {A : Type} (l : list A) : float :=
  PrimFloat.of_uint63 (Uint63.of_Z (Z.of_nat (List.length l))).

(** [array.reduce(f, init)]. *)
Definition reduce {A B : Type} (f : B -> A -> B) (init : B) (l : list A) : B :=
  fold_left f l init.

End JS.

(** ** The external collaborators *)

(** What [navigator.mediaDevices.getUserMedia({ audio: true })] does. *)
Inductive MicOutcome : Type :=
| MicGranted                              (* resolves with a stream *)
| MicRejected (name message : string)     (* rejects, e.g. NotAllowedError *)
| MicUnavailable.                         (* [navigator.mediaDevices] is undefined *)

(** What [response.json()] gives for the body of the registration answer. *)
Inductive JsonBody : Type :=
| JsonInvalid                                   (* [json()] rejects *)
| JsonNull                                      (* the body is [null] *)
| JsonObject (access_token : option string)     (* an object; [None]: no such key;
                                                   a string when present, as
                                                   [RegisterCallResponse] declares *)
| JsonOther.                                    (* a number, a string, a boolean or
                                                   an array: reading the property
                                                   gives [undefined] *)

(** What [fetch(BACKEND_URL + '/create-web-call', ...)] does. *)
Inductive FetchOutcome : Type :=
| FetchFailed                                   (* transport failure: rejects *)
| FetchResponse (status : Z) (body : JsonBody).

(** The outcomes the awaited collaborators give during one handler, and the
    build-time configuration. *)
Record Env : Type := {
  AGENT_ID : string;
  mic : MicOutcome;
  backend : FetchOutcome;
  sdk_startCall_resolves : bool
}.

(** Calls that leave the component. *)
Inductive ExtCall : Type :=
| ClientStartCall (accessToken : option string) (emitRawAudioSamples : bool)
| ClientStopCall
| ClientMute
| ClientUnmute
| GetUserMedia
| StopTracks
| PostCreateWebCall (agent_id : string)
| PreventDefault.

(** Recognises the client's [unmute] in a list of calls. *)
Definition is_unmute (c : ExtCall) : bool :=
  match c with ClientUnmute => true | _ => false end.

(** What a [catch] clause can receive. *)
Inductive Exn : Type :=
| HttpError (status : Z)            (* [throw new Error(`...${response.status}`)] *)
| NetworkError                      (* [fetch] rejected *)
| SyntaxError                       (* [response.json()] rejected *)
| TypeError                         (* property read on [undefined]/[null] *)
| MediaError (name message : string)
| SdkStartError.                    (* [startCall] rejected *)

(** ** Handlers as effect lists with completions *)

Module Effects.
Section WithSetter.

Variable Setter : Type.

Inductive Effect : Type :=
| SetState (u : Setter)
| Ext (c : ExtCall).

Inductive Completion (A : Type) : Type :=
| Normal (a : A)
| Return
| Throw (e : Exn).

Definition M (A : Type) : Type := (Completion A * list Effect)%type.

Definition ret {A : Type} (a : A) : M A := (Normal a, []).

Definition bind {A B : Type} (c : M A) (k : A -> M B) : M B :=
  match c with
  | (Normal a, l) => let (r, l') := k a in (r, l ++ l')
  | (Return _, l) => (Return B, l)
  | (Throw _ e, l) => (Throw B e, l)
  end.

Definition set (u : Setter) : M unit := (Normal tt, [SetState u]).
Definition ext (c : ExtCall) : M unit := (Normal tt, [Ext c]).
Definition throw {A : Type} (e : Exn) : M A := (Throw A e, []).
Definition return_ {A : Type} : M A := (Return A, []).

(** [try { c } catch (err) { h err }] *)
Definition try_catch {A : Type} (c : M A) (h : Exn -> M A) : M A :=
  match c with
  | (Throw _ e, l) => let (r, l') := h e in (r, l ++ l')
  | other => other
  end.

(** The body of a function whose result is unused: [return;] ends it. *)
Definition body (c : M unit) : M unit :=
  match c with
  | (Return _, l) => (Normal tt, l)
  | other => other
  end.

Definition completion {A : Type} (c : M A) : Completion A := fst c.
Definition effects {A : Type} (c : M A) : list Effect := snd c.

(** The calls on collaborators, in order. *)
Fixpoint calls (l : list Effect) : list ExtCall :=
  match l with
  | [] => []
  | Ext c :: l' => c :: calls l'
  | SetState _ :: l' => calls l'
  end.

(** The setter calls, in order. *)
Fixpoint setters (l : list Effect) : list Setter :=
  match l with
  | [] => []
  | SetState u :: l' => u :: setters l'
  | Ext _ :: l' => setters l'
  end.

Variable State : Type.
Variable apply : Setter -> State -> State.

(** The state once the setter calls of [l] have been applied to [s]. *)
Definition replay (l : list Effect) (s : State) : State :=
  fold_left (fun acc u => apply u acc) (setters l) s.

End WithSetter.

Arguments Normal {A} a.
Arguments SetState {Setter} u.
Arguments Ext {Setter} c.
Arguments ret {Setter A} a.
Arguments bind {Setter A B} c k.
Arguments set {Setter} u.
Arguments ext {Setter} c.
Arguments throw {Setter A} e.
Arguments return_ {Setter A}.
Arguments try_catch {Setter A} c h.
Arguments body {Setter} c.
Arguments completion {Setter A} c.
Arguments effects {Setter A} c.
Arguments calls {Setter} l.
Arguments setters {Setter} l.
Arguments replay {Setter State} apply l s.

End Effects.

Import Effects.

Declare Scope js_scope.
Delimit Scope js_scope with js.
Notation "x <- c ;; k" := (bind c (fun x => k))
  (at level 61, c at next level, right associativity) : js_scope.
Notation "c ;; k" := (bind c (fun _ => k))
  (at level 61, right associativity) : js_scope.
Local Open Scope js_scope.

(** The SDK client ([new RetellWebClient()]): its methods are opaque; a call
    is recorded, and [startCall] is a promise that may reject. *)
Module RetellWebClient.
Section Methods.

Variable Setter : Type.
Let M := M Setter.

Definition startCall (env : Env) (accessToken : option string)
    (emitRawAudioSamples : bool) : M unit :=
  ext (ClientStartCall accessToken emitRawAudioSamples) ;;
  if sdk_startCall_resolves env then ret tt else throw SdkStartError.

Definition stopCall : M unit := ext ClientStopCall.
Definition mute : M unit := ext ClientMute.
Definition unmute : M unit := ext ClientUnmute.

End Methods.
End RetellWebClient.

(** The browser and the backend, as the component awaits them. *)
Module Browser.
Section Awaited.

Variable Setter : Type.
Let M := M Setter.

(** [await navigator.mediaDevices.getUserMedia({ audio: true })] *)
Definition getUserMedia (env : Env) : M unit :=
  match mic env with
  | MicUnavailable => throw TypeError
  | MicGranted => ext GetUserMedia
  | MicRejected name message => ext GetUserMedia ;; throw (MediaError name message)
  end.

(** [stream.getTracks().forEach(track => track.stop())] *)
Definition stopTracks : M unit := ext StopTracks.

(** [await fetch(`${BACKEND_URL}/create-web-call`, { method: 'POST', ... })]
    followed by the [response.ok] test and [response.json()], as all three
    [registerCall] functions have it.  The result is the parsed body. *)
Definition registerCall (env : Env) (agentId : string) : M JsonBody :=
  ext (PostCreateWebCall agentId) ;;
  match backend env with
  | FetchFailed => throw NetworkError
  | FetchResponse status json =>
      if negb (JS.response_ok status) then throw (HttpError status)
      else match json with
           | JsonInvalid => throw SyntaxError
           | b => ret b
           end
  end.

(** Reading [.access_token] of the registration response (or destructuring
    it): a [TypeError] on [null], [undefined] on a value without that
    property. *)
Definition access_token_of (b : JsonBody) : M (option string) :=
  match b with
  | JsonObject t => ret t
  | JsonOther => ret None
  | _ => throw TypeError
  end.

End Awaited.
End Browser.

(** * The enum variant ([src/src/App.tsx], second component) *)

Module EnumVariant.

(** [type CallStatus = 'idle' | 'connecting' | 'connected' | 'error'] *)
Inductive CallStatus : Type := Idle | Connecting | Connected | Error.

(** [type TalkMode = 'continuous' | 'push-to-talk'] *)
Inductive TalkMode : Type := Continuous | PushToTalk.

Definition CallStatus_eqb (a b : CallStatus) : bool :=
  match a, b with
  | Idle, Idle | Connecting, Connecting | Connected, Connected | Error, Error => true
  | _, _ => false
  end.

Definition TalkMode_eqb (a b : TalkMode) : bool :=
  match a, b with
  | Continuous, Continuous | PushToTalk, PushToTalk => true
  | _, _ => false
  end.

(** The [useState] cells of the component. *)
Record Session : Type := {
  status : CallStatus;
  talkMode : TalkMode;
  isMuted : bool;
  isAgentSpeaking : bool;
  isUserSpeaking : bool;
  isPTTActive : bool;
  error : option string;
  audioLevel : float
}.

(** The initial values given to [useState]. *)
Definition initial : Session := {|
  status := Idle;
  talkMode := Continuous;
  isMuted := false;
  isAgentSpeaking := false;
  isUserSpeaking := false;
  isPTTActive := false;
  error := None;
  audioLevel := 0%float
|}.

Inductive Setter : Type :=
| setStatus (v : CallStatus)
| setTalkMode (v : TalkMode)
| setIsMuted (v : bool)
| setIsAgentSpeaking (v : bool)
| setIsUserSpeaking (v : bool)
| setIsPTTActive (v : bool)
| setError (v : option string)
| setAudioLevel (v : float).

Definition apply (u : Setter) (s : Session) : Session :=
  match u with
  | setStatus v =>
      {| status := v; talkMode := talkMode s; isMuted := isMuted s;
         isAgentSpeaking := isAgentSpeaking s; isUserSpeaking := isUserSpeaking s;
         isPTTActive := isPTTActive s; error := error s; audioLevel := audioLevel s |}
  | setTalkMode v =>
      {| status := status s; talkMode := v; isMuted := isMuted s;
         isAgentSpeaking := isAgentSpeaking s; isUserSpeaking := isUserSpeaking s;
         isPTTActive := isPTTActive s; error := error s; audioLevel := audioLevel s |}
  | setIsMuted v =>
      {| status := status s; talkMode := talkMode s; isMuted := v;
         isAgentSpeaking := isAgentSpeaking s; isUserSpeaking := isUserSpeaking s;
         isPTTActive := isPTTActive s; error := error s; audioLevel := audioLevel s |}
  | setIsAgentSpeaking v =>
      {| status := status s; talkMode := talkMode s; isMuted := isMuted s;
         isAgentSpeaking := v; isUserSpeaking := isUserSpeaking s;
         isPTTActive := isPTTActive s; error := error s; audioLevel := audioLevel s |}
  | setIsUserSpeaking v =>
      {| status := status s; talkMode := talkMode s; isMuted := isMuted s;
         isAgentSpeaking := isAgentSpeaking s; isUserSpeaking := v;
         isPTTActive := isPTTActive s; error := error s; audioLevel := audioLevel s |}
  | setIsPTTActive v =>
      {| status := status s; talkMode := talkMode s; isMuted := isMuted s;
         isAgentSpeaking := isAgentSpeaking s; isUserSpeaking := isUserSpeaking s;
         isPTTActive := v; error := error s; audioLevel := audioLevel s |}
  | setError v =>
      {| status := status s; talkMode := talkMode s; isMuted := isMuted s;
         isAgentSpeaking := isAgentSpeaking s; isUserSpeaking := isUserSpeaking s;
         isPTTActive := isPTTActive s; error := v; audioLevel := audioLevel s |}
  | setAudioLevel v =>
      {| status := status s; talkMode := talkMode s; isMuted := isMuted s;
         isAgentSpeaking := isAgentSpeaking s; isUserSpeaking := isUserSpeaking s;
         isPTTActive := isPTTActive s; error := error s; audioLevel := v |}
  end.

Definition M := Effects.M Setter.

(** The module-level [const retellClient = new RetellWebClient()]. *)
Module retellClient.
Definition startCall := RetellWebClient.startCall Setter.
Definition stopCall := RetellWebClient.stopCall Setter.
Definition mute := RetellWebClient.mute Setter.
Definition unmute := RetellWebClient.unmute Setter.
End retellClient.

(** ** Handlers registered on the SDK client (lines 183-216) *)

Definition on_call_started : M unit :=
  set (setStatus Connected) ;;
  set (setError None).

Definition on_call_ended : M unit :=
  set (setStatus Idle) ;;
  set (setIsAgentSpeaking false) ;;
  set (setIsUserSpeaking false) ;;
  set (setIsMuted false).

Definition on_agent_start_talking : M unit := set (setIsAgentSpeaking true).

Definition on_agent_stop_talking : M unit := set (setIsAgentSpeaking false).

Definition on_error : M unit :=
  set (setError (Some "Connection error. Please try again.")) ;;
  set (setStatus Error).

(** The level computed from a frame of samples (a [Float32Array]: its
    elements read as numbers). *)
Definition audio_level (audio : list float) : float :=
  let sum := JS.reduce (fun acc val => (acc + JS.Math_abs val)%float) 0%float audio in
  let avg := (sum / JS.length_number audio)%float in
  JS.Math_min (avg * 10)%float 1%float.

Definition on_audio (audio : list float) : M unit :=
  set (setAudioLevel (audio_level audio)).

(** ** The component's own functions (lines 226-322) *)

Definition registerCall (env : Env) : M JsonBody :=
  Browser.registerCall Setter env (AGENT_ID env).

Definition requestMicPermission (env : Env) : M bool :=
  try_catch
    (Browser.getUserMedia Setter env ;;
     Browser.stopTracks Setter ;;
     ret true)
    (fun _ => ret false).

Definition startCall (env : Env) : M unit :=
  body (try_catch
    (set (setStatus Connecting) ;;
     set (setError None) ;;
     hasPermission <- requestMicPermission env ;;
     (if negb hasPermission then
        set (setError (Some "Microphone access denied. Please allow microphone in your browser settings.")) ;;
        set (setStatus Error) ;;
        return_
      else ret tt) ;;
     response <- registerCall env ;;
     access_token <- Browser.access_token_of Setter response ;;
     retellClient.startCall env access_token true)
    (fun _ =>
       set (setError (Some "Failed to connect. Check your microphone permissions.")) ;;
       set (setStatus Error))).

Definition stopCall : M unit :=
  retellClient.stopCall ;;
  set (setStatus Idle).

(** [v] is the render whose closure the handler is. *)
Definition toggleMute (v : Session) : M unit :=
  if isMuted v then
    retellClient.unmute ;;
    set (setIsMuted false)
  else
    retellClient.mute ;;
    set (setIsMuted true).

Definition handlePTTStart (v : Session) : M unit :=
  body
    ((if negb (CallStatus_eqb (status v) Connected)
         || negb (TalkMode_eqb (talkMode v) PushToTalk)
      then return_ else ret tt) ;;
     set (setIsPTTActive true) ;;
     retellClient.unmute).

Definition handlePTTEnd (v : Session) : M unit :=
  body
    ((if negb (TalkMode_eqb (talkMode v) PushToTalk) then return_ else ret tt) ;;
     set (setIsPTTActive false) ;;
     retellClient.mute).

Definition switchMode (v : Session) (mode : TalkMode) : M unit :=
  set (setTalkMode mode) ;;
  if CallStatus_eqb (status v) Connected then
    if TalkMode_eqb mode PushToTalk then
      retellClient.mute ;;
      set (setIsMuted true)
    else
      retellClient.unmute ;;
      set (setIsMuted false)
  else ret tt.

(** ** Keyboard shortcuts (lines 325-350)

    The listeners are registered by an effect whose dependencies are
    [talkMode], [status], [handlePTTStart] and [handlePTTEnd]; [v] is the
    render that registered them. *)

Record KeyboardEvent : Type := {
  code : string;
  repeat : bool
}.

Definition handleKeyDown (v : Session) (e : KeyboardEvent) : M unit :=
  (if String.eqb (code e) "Space"
      && TalkMode_eqb (talkMode v) PushToTalk
      && CallStatus_eqb (status v) Connected
   then
     ext PreventDefault ;;
     handlePTTStart v
   else ret tt) ;;
  (if String.eqb (code e) "KeyM" && CallStatus_eqb (status v) Connected
   then
     ext PreventDefault ;;
     toggleMute v
   else ret tt).

Definition handleKeyUp (v : Session) (e : KeyboardEvent) : M unit :=
  if String.eqb (code e) "Space" && TalkMode_eqb (talkMode v) PushToTalk
  then
    ext PreventDefault ;;
    handlePTTEnd v
  else ret tt.

(** ** What the render [v] binds to the controls (lines 395-401, 456-489) *)

(** [onClick={status === 'idle' || status === 'error' ? startCall : stopCall}] *)
Definition main_onClick (env : Env) (v : Session) : M unit :=
  if CallStatus_eqb (status v) Idle || CallStatus_eqb (status v) Error
  then startCall env
  else stopCall.

(** [talkMode === 'push-to-talk' ? handlePTTStart : undefined], for
    [onMouseDown] and [onTouchStart]. *)
Definition main_onPress (v : Session) : M unit :=
  if TalkMode_eqb (talkMode v) PushToTalk then handlePTTStart v else ret tt.

(** [talkMode === 'push-to-talk' ? handlePTTEnd : undefined], for
    [onMouseUp], [onMouseLeave] and [onTouchEnd]. *)
Definition main_onRelease (v : Session) : M unit :=
  if TalkMode_eqb (talkMode v) PushToTalk then handlePTTEnd v else ret tt.

(** The mute button is in the tree only under
    [status === 'connected' && talkMode === 'continuous']. *)
Definition mute_button_rendered (v : Session) : bool :=
  CallStatus_eqb (status v) Connected && TalkMode_eqb (talkMode v) Continuous.

Definition mute_onClick (v : Session) : M unit :=
  if mute_button_rendered v then toggleMute v else ret tt.

Definition getStatusText (v : Session) : string :=
  match status v with
  | Idle => "Tap to summon Ozzy"
  | Connecting => "Summoning..."
  | Connected =>
      if isAgentSpeaking v then "Ozzy is speaking..."
      else if isPTTActive v then "Listening..."
      else if isMuted v then "Muted"
      else if TalkMode_eqb (talkMode v) PushToTalk then "Hold to speak"
      else "Listening..."
  | Error => if JS.truthy (error v) then
               match error v with Some m => m | None => "" end
             else "Something went wrong"
  end.

(** ** The component as a transition system *)

Inductive Event : Type :=
(* emitted by the SDK client *)
| call_started
| call_ended
| agent_start_talking
| agent_stop_talking
| sdk_error
| audio (samples : list float)
(* user input on the main button *)
| Click (env : Env)
| MouseDown
| MouseUp
| MouseLeave
| TouchStart
| TouchEnd
(* the mode toggle and the mute button *)
| ClickMode (mode : TalkMode)
| ClickMute
(* the window's key listeners *)
| KeyDown (e : KeyboardEvent)
| KeyUp (e : KeyboardEvent).

(** The handler the render [v] has in place for an event. *)
Definition handler (v : Session) (ev : Event) : M unit :=
  match ev with
  | call_started => on_call_started
  | call_ended => on_call_ended
  | agent_start_talking => on_agent_start_talking
  | agent_stop_talking => on_agent_stop_talking
  | sdk_error => on_error
  | audio samples => on_audio samples
  | Click env => main_onClick env v
  | MouseDown | TouchStart => main_onPress v
  | MouseUp | MouseLeave | TouchEnd => main_onRelease v
  | ClickMode mode => switchMode v mode
  | ClickMute => mute_onClick v
  | KeyDown e => handleKeyDown v e
  | KeyUp e => handleKeyUp v e
  end.

(** The state [s] after the setter calls of [c] have been applied. *)
Definition run (c : M unit) (s : Session) : Session :=
  replay apply (effects c) s.

(** One event, handled by the closure of the render of [s].  The controls
    are bound anew at every render, and the key listeners are registered
    again whenever [status] or [talkMode] changes, so the [status] and
    [talkMode] a handler reads are those of [s].  ([isMuted] is not among
    the dependencies of the key listeners: what the M key reads is the
    [isMuted] of the render that registered them, which [step] takes to be
    [s]; [mounted_step] below keeps that render apart.)  An async handler
    is run through all its awaits: events that arrive while a start is
    pending are not represented. *)
Definition step (s : Session) (ev : Event) : Session :=
  run (handler s ev) s.

(** The collaborator calls made while handling [ev]. *)
Definition calls_of (s : Session) (ev : Event) : list ExtCall :=
  calls (effects (handler s ev)).

Definition steps (s : Session) (evs : list Event) : Session :=
  fold_left step evs s.

(** The values written to [status], in order. *)
Fixpoint status_writes (l : list Setter) : list CallStatus :=
  match l with
  | [] => []
  | setStatus v :: l' => v :: status_writes l'
  | _ :: l' => status_writes l'
  end.

(** The collaborator calls of a sequence of events, each handled by the
    render of the state it arrives in. *)
Fixpoint trace (s : Session) (evs : list Event) : list ExtCall :=
  match evs with
  | [] => []
  | ev :: evs' => calls_of s ev ++ trace (step s ev) evs'
  end.

(** ** The mounted component: which render the key listeners belong to

    The controls get the handlers of the latest render.  The window's key
    listeners are those of the render in which the effect of lines 325-350
    last ran, and it runs again only when one of its dependencies
    [talkMode], [status], [handlePTTStart] (memoised on [status] and
    [talkMode]) and [handlePTTEnd] (memoised on [talkMode]) differs from the
    previous render: [isMuted] and [toggleMute] are not among them.  The
    updates of one handler are taken to reach the screen in one render. *)

Record Mounted : Type := {
  current : Session;        (* the state of the latest render *)
  key_render : Session      (* the render whose closures the key listeners are *)
}.

(** After the first render and its effects. *)
Definition mount : Mounted := {| current := initial; key_render := initial |}.

(** The dependencies of the key-listener effect differ between two renders. *)
Definition deps_changed (prev next : Session) : bool :=
  negb (TalkMode_eqb (talkMode prev) (talkMode next))
  || negb (CallStatus_eqb (status prev) (status next)).

Definition mounted_handler (m : Mounted) (ev : Event) : M unit :=
  match ev with
  | KeyDown e => handleKeyDown (key_render m) e
  | KeyUp e => handleKeyUp (key_render m) e
  | _ => handler (current m) ev
  end.

Definition mounted_step (m : Mounted) (ev : Event) : Mounted :=
  let s' := run (mounted_handler m ev) (current m) in
  {| current := s';
     key_render := if deps_changed (key_render m) s' then s' else key_render m |}.

Definition mounted_calls (m : Mounted) (ev : Event) : list ExtCall :=
  calls (effects (mounted_handler m ev)).

Definition mounted_steps (m : Mounted) (evs : list Event) : Mounted :=
  fold_left mounted_step evs m.

(** ** What the render shows besides the status line (lines 381-423) *)

(** The class of the glow behind the avatar; [None] when the glow is not in
    the tree, which is whenever [status] is not connected. *)
Definition glow (v : Session) : option string :=
  if CallStatus_eqb (status v) Connected then
    Some (if isAgentSpeaking v then "bg-purple-600/20 scale-150 animate-pulse"
          else if isPTTActive v
                  || (negb (isMuted v) && TalkMode_eqb (talkMode v) Continuous)
               then "bg-green-500/20 scale-130 animate-pulse"
               else "bg-neutral-800/20 scale-110")
  else None.

(** The four conditional fragments of the main button's [className], in
    order; a fragment whose condition fails is the empty string. *)
Definition main_button_rings (v : Session) : list string :=
  [ if CallStatus_eqb (status v) Connecting then "animate-pulse scale-95" else "";
    if CallStatus_eqb (status v) Connected && isAgentSpeaking v
    then "ring-4 ring-purple-600/50" else "";
    if CallStatus_eqb (status v) Connected
       && (isPTTActive v
           || (negb (isMuted v) && TalkMode_eqb (talkMode v) Continuous
               && negb (isAgentSpeaking v)))
    then "ring-4 ring-green-500/50" else "";
    if CallStatus_eqb (status v) Error then "ring-4 ring-red-600/50" else "" ].

(** The fragments that are present. *)
Definition rings_shown (v : Session) : list string :=
  filter (fun c => negb (String.eqb c "")) (main_button_rings v).

(** [status === 'connected' && !isAgentSpeaking && audioLevel > 0.1]: whether
    the audio level indicator is in the tree.  The literal [0.1] is the
    binary64 number nearest to one tenth. *)
Definition audio_indicator_rendered (v : Session) : bool :=
  CallStatus_eqb (status v) Connected
  && negb (isAgentSpeaking v)
  && PrimFloat.ltb 0x1.999999999999ap-4%float (audioLevel v).

End EnumVariant.

(** * The boolean variant ([src/src/App.tsx], first component) *)

Module BooleanVariant.

Record Session : Type := {
  isCalling : bool;
  isAgentSpeaking : bool;
  error : option string
}.

Definition initial : Session :=
  {| isCalling := false; isAgentSpeaking := false; error := None |}.

Inductive Setter : Type :=
| setIsCalling (v : bool)
| setIsAgentSpeaking (v : bool)
| setError (v : option string).

Definition apply (u : Setter) (s : Session) : Session :=
  match u with
  | setIsCalling v =>
      {| isCalling := v; isAgentSpeaking := isAgentSpeaking s; error := error s |}
  | setIsAgentSpeaking v =>
      {| isCalling := isCalling s; isAgentSpeaking := v; error := error s |}
  | setError v =>
      {| isCalling := isCalling s; isAgentSpeaking := isAgentSpeaking s; error := v |}
  end.

Definition M := Effects.M Setter.

(** The module-level [const retellWebClient = new RetellWebClient()]. *)
Module retellWebClient.
Definition startCall := RetellWebClient.startCall Setter.
Definition stopCall := RetellWebClient.stopCall Setter.
End retellWebClient.

(** ** Handlers registered on the SDK client (lines 22-48) *)

Definition on_call_started : M unit := set (setError None).

Definition on_call_ended : M unit :=
  set (setIsCalling false) ;;
  set (setIsAgentSpeaking false).

Definition on_agent_start_talking : M unit := set (setIsAgentSpeaking true).

Definition on_agent_stop_talking : M unit := set (setIsAgentSpeaking false).

Definition on_error : M unit :=
  set (setError (Some "Connection error. Please try again.")) ;;
  retellWebClient.stopCall ;;
  set (setIsCalling false).

(** ** The component's own functions (lines 51-85) *)

Definition registerCall (env : Env) (agentId : string) : M JsonBody :=
  Browser.registerCall Setter env agentId.

Definition toggleConversation (env : Env) (v : Session) : M unit :=
  if isCalling v then
    retellWebClient.stopCall
  else
    set (setError None) ;;
    try_catch
      (registerCallResponse <- registerCall env (AGENT_ID env) ;;
       access_token <- Browser.access_token_of Setter registerCallResponse ;;
       if JS.truthy access_token then
         retellWebClient.startCall env access_token false ;;
         set (setIsCalling true)
       else ret tt)
      (fun _ =>
         set (setError (Some "Failed to connect. Check microphone permissions."))).

Inductive Event : Type :=
| call_started
| call_ended
| agent_start_talking
| agent_stop_talking
| sdk_error
| Click (env : Env).      (* the main button and, while calling, "End Call" *)

Definition handler (v : Session) (ev : Event) : M unit :=
  match ev with
  | call_started => on_call_started
  | call_ended => on_call_ended
  | agent_start_talking => on_agent_start_talking
  | agent_stop_talking => on_agent_stop_talking
  | sdk_error => on_error
  | Click env => toggleConversation env v
  end.

Definition run (c : M unit) (s : Session) : Session :=
  replay apply (effects c) s.

(** One event, handled to its end by the handler of the render of [s].  The
    async [toggleConversation] is run through all its awaits: events that
    arrive while a start is pending are not represented. *)
Definition step (s : Session) (ev : Event) : Session :=
  run (handler s ev) s.

Definition calls_of (s : Session) (ev : Event) : list ExtCall :=
  calls (effects (handler s ev)).

Definition steps (s : Session) (evs : list Event) : Session :=
  fold_left step evs s.

Fixpoint trace (s : Session) (evs : list Event) : list ExtCall :=
  match evs with
  | [] => []
  | ev :: evs' => calls_of s ev ++ trace (step s ev) evs'
  end.

(** The status line (lines 126-130):
    [error || (isCalling ? (isAgentSpeaking ? ... : ...) : ...)]. *)
Definition getStatusText (v : Session) : string :=
  if JS.truthy (error v) then
    match error v with Some m => m | None => "" end
  else if isCalling v then
    if isAgentSpeaking v then "Ozzy is speaking..." else "Listening..."
  else "Tap to summon Ozzy".

(** The two conditional ring fragments of the main button (lines 117-118). *)
Definition main_button_rings (v : Session) : list string :=
  [ if isCalling v && isAgentSpeaking v then "ring-4 ring-purple-600/50" else "";
    if isCalling v && negb (isAgentSpeaking v) then "ring-4 ring-green-500/50" else "" ].

End BooleanVariant.

(** * The multi-flag variant ([src/unnamed/part_000]) *)

Module MultiFlagVariant.

Record Session : Type := {
  isCalling : bool;
  hasError : bool;
  isTransitioning : bool;
  isCheckingMic : bool;
  isMuted : bool;
  errorDetail : string
}.

Definition initial : Session := {|
  isCalling := false;
  hasError := false;
  isTransitioning := false;
  isCheckingMic := false;
  isMuted := false;
  errorDetail := ""
|}.

Inductive Setter : Type :=
| setIsCalling (v : bool)
| setHasError (v : bool)
| setIsTransitioning (v : bool)
| setIsCheckingMic (v : bool)
| setIsMuted (v : bool)
| setErrorDetail (v : string).

Definition apply (u : Setter) (s : Session) : Session :=
  match u with
  | setIsCalling v =>
      {| isCalling := v; hasError := hasError s; isTransitioning := isTransitioning s;
         isCheckingMic := isCheckingMic s; isMuted := isMuted s;
         errorDetail := errorDetail s |}
  | setHasError v =>
      {| isCalling := isCalling s; hasError := v; isTransitioning := isTransitioning s;
         isCheckingMic := isCheckingMic s; isMuted := isMuted s;
         errorDetail := errorDetail s |}
  | setIsTransitioning v =>
      {| isCalling := isCalling s; hasError := hasError s; isTransitioning := v;
         isCheckingMic := isCheckingMic s; isMuted := isMuted s;
         errorDetail := errorDetail s |}
  | setIsCheckingMic v =>
      {| isCalling := isCalling s; hasError := hasError s;
         isTransitioning := isTransitioning s; isCheckingMic := v;
         isMuted := isMuted s; errorDetail := errorDetail s |}
  | setIsMuted v =>
      {| isCalling := isCalling s; hasError := hasError s;
         isTransitioning := isTransitioning s; isCheckingMic := isCheckingMic s;
         isMuted := v; errorDetail := errorDetail s |}
  | setErrorDetail v =>
      {| isCalling := isCalling s; hasError := hasError s;
         isTransitioning := isTransitioning s; isCheckingMic := isCheckingMic s;
         isMuted := isMuted s; errorDetail := v |}
  end.

Definition M := Effects.M Setter.

Module retellWebClient.
Definition startCall := RetellWebClient.startCall Setter.
Definition stopCall := RetellWebClient.stopCall Setter.
Definition mute := RetellWebClient.mute Setter.
Definition unmute := RetellWebClient.unmute Setter.
End retellWebClient.

(** ** Handlers registered on the SDK client (lines 23-57);
    [agent_start_talking], [agent_stop_talking], [audio], [update] and
    [metadata] have handlers that do nothing. *)

Definition on_call_started : M unit :=
  set (setHasError false) ;;
  set (setIsTransitioning false) ;;
  set (setIsCheckingMic false).

Definition on_call_ended : M unit :=
  set (setIsCalling false) ;;
  set (setHasError false) ;;
  set (setIsTransitioning false) ;;
  set (setIsMuted false).

Definition on_ignored : M unit := ret tt.

Definition on_error : M unit :=
  set (setHasError true) ;;
  retellWebClient.stopCall ;;
  set (setIsCalling false) ;;
  set (setIsTransitioning false) ;;
  set (setIsCheckingMic false).

(** ** The component's own functions (lines 63-142) *)

(** [error?.name + ': ' + error?.message] for what [getUserMedia] rejects
    with. *)
Definition errorMsg (e : Exn) : string :=
  match e with
  | MediaError name message => name ++ ": " ++ message
  | _ => "TypeError: undefined"
  end.

Definition checkMicrophonePermission (env : Env) : M bool :=
  try_catch
    (match mic env with
     | MicUnavailable =>
         set (setErrorDetail "mediaDevices not supported") ;;
         ret false
     | _ =>
         Browser.getUserMedia Setter env ;;
         Browser.stopTracks Setter ;;
         set (setErrorDetail "") ;;
         ret true
     end)
    (fun e =>
       set (setErrorDetail (errorMsg e)) ;;
       ret false).

Definition registerCall (env : Env) (agentId : string) : M JsonBody :=
  Browser.registerCall Setter env agentId.

Definition toggleConversation (env : Env) (v : Session) : M unit :=
  body
    ((if isTransitioning v || isCheckingMic v then return_ else ret tt) ;;
     if isCalling v then
       set (setIsTransitioning true) ;;
       retellWebClient.stopCall
     else
       try_catch
         (set (setIsCheckingMic true) ;;
          hasMicPermission <- checkMicrophonePermission env ;;
          (if negb hasMicPermission then
             set (setHasError true) ;;
             set (setIsCheckingMic false) ;;
             return_
           else ret tt) ;;
          set (setIsTransitioning true) ;;
          set (setHasError false) ;;
          registerCallResponse <- registerCall env (AGENT_ID env) ;;
          access_token <- Browser.access_token_of Setter registerCallResponse ;;
          if JS.truthy access_token then
            retellWebClient.startCall env access_token false ;;
            set (setIsCalling true)
          else ret tt)
         (fun _ =>
            set (setHasError true) ;;
            set (setIsTransitioning false)) ;;
       set (setIsCheckingMic false)).

Definition toggleMute (v : Session) : M unit :=
  body
    ((if negb (isCalling v) then return_ else ret tt) ;;
     if isMuted v then
       retellWebClient.unmute ;;
       set (setIsMuted false)
     else
       retellWebClient.mute ;;
       set (setIsMuted true)).

Definition getStatusText (v : Session) : string :=
  if isCheckingMic v then "Checking microphone..."
  else if isTransitioning v then "Connecting..."
  else if hasError v then "Microphone permission denied"
  else if isCalling v then "Listening..."
  else "Tap to summon Ozzy".

(** ** What the render [v] binds to the controls (lines 169-211) *)

(** [disabled={isTransitioning || isCheckingMic}] on the main button. *)
Definition main_disabled (v : Session) : bool :=
  isTransitioning v || isCheckingMic v.

(** A disabled button dispatches no click. *)
Definition main_onClick (env : Env) (v : Session) : M unit :=
  if main_disabled v then ret tt else toggleConversation env v.

(** The mute button is in the tree only under [isCalling]. *)
Definition mute_onClick (v : Session) : M unit :=
  if isCalling v then toggleMute v else ret tt.

Inductive Event : Type :=
| call_started
| call_ended
| agent_start_talking
| agent_stop_talking
| audio
| update
| metadata
| sdk_error
| Click (env : Env)
| ClickMute.

Definition handler (v : Session) (ev : Event) : M unit :=
  match ev with
  | call_started => on_call_started
  | call_ended => on_call_ended
  | agent_start_talking | agent_stop_talking | audio | update | metadata => on_ignored
  | sdk_error => on_error
  | Click env => main_onClick env v
  | ClickMute => mute_onClick v
  end.

Definition run (c : M unit) (s : Session) : Session :=
  replay apply (effects c) s.

(** One event, handled to its end by the handler of the render of [s].  The
    async [toggleConversation] is run through all its awaits: events that
    arrive while a start is pending are not represented. *)
Definition step (s : Session) (ev : Event) : Session :=
  run (handler s ev) s.

Definition calls_of (s : Session) (ev : Event) : list ExtCall :=
  calls (effects (handler s ev)).

Definition steps (s : Session) (evs : list Event) : Session :=
  fold_left step evs s.

Fixpoint trace (s : Session) (evs : list Event) : list ExtCall :=
  match evs with
  | [] => []
  | ev :: evs' => calls_of s ev ++ trace (step s ev) evs'
  end.

(** The main button is enabled and no call is up. *)
Definition ready (m : Session) : Prop :=
  isCalling m = false /\ isTransitioning m = false /\ isCheckingMic m = false.

End MultiFlagVariant.

(** * Outcomes of a start, read off the environment *)

(** The [access_token] property the component reads when the registration
    answers 2xx with a body it can read a property of (an object, or a number,
    string, boolean or array, which has no such property); [None] when the
    registration fails (transport failure, status outside 200-299, a body that
    is not JSON, a [null] body). *)
Definition registered (env : Env) : option (option string) :=
  match backend env with
  | FetchResponse status (JsonObject t) =>
      if JS.response_ok status then Some t else None
  | FetchResponse status JsonOther =>
      if JS.response_ok status then Some None else None
  | _ => None
  end.

(** The microphone probe succeeds. *)
Definition mic_granted (env : Env) : bool :=
  match mic env with
  | MicGranted => true
  | _ => false
  end.

(** * Runs used as concrete inputs *)

(** Permission granted, registration answers 200 with a token, the SDK
    accepts the call. *)
Definition env_ok : Env := {|
  AGENT_ID := "agent_1";
  mic := MicGranted;
  backend := FetchResponse 200 (JsonObject (Some "tok123"));
  sdk_startCall_resolves := true
|}.

(** As [env_ok], but the registration answers with the given status and body. *)
Definition env_backend (status : Z) (json : JsonBody) : Env := {|
  AGENT_ID := "agent_1";
  mic := MicGranted;
  backend := FetchResponse status json;
  sdk_startCall_resolves := true
|}.

Module Runs.
Import EnumVariant.

Definition Space (repeating : bool) : KeyboardEvent :=
  {| code := "Space"; repeat := repeating |}.

Definition KeyM : KeyboardEvent := {| code := "KeyM"; repeat := false |}.

(** A call is up in continuous mode. *)
Definition in_call : Session :=
  steps initial [Click env_ok; call_started].

(** The user chose push-to-talk, started a call, and is holding the button. *)
Definition holding_ptt : Session :=
  steps initial [ClickMode PushToTalk; Click env_ok; call_started; MouseDown].

(** The user muted during a call and the agent is talking. *)
Definition muted_agent_talking : Session :=
  steps initial [Click env_ok; call_started; ClickMute; agent_start_talking].

End Runs.

(** * Properties *)

Section EnumVariantFacts.
Import EnumVariant.

(** What [call_ended] does to any state: everything but [isPTTActive],
    [talkMode], [error] and [audioLevel] is reset. *)
Lemma call_ended_state (s : Session) :
  step s call_ended =
    {| status := Idle; talkMode := talkMode s; isMuted := false;
       isAgentSpeaking := false; isUserSpeaking := false;
       isPTTActive := isPTTActive s; error := error s;
       audioLevel := audioLevel s |}.
Proof. reflexivity. Qed.

Lemma call_ended_idempotent (s : Session) :
  step (step s call_ended) call_ended = step s call_ended.
Proof. reflexivity. Qed.

Lemma call_ended_no_calls (s : Session) : calls_of s call_ended = [].
Proof. reflexivity. Qed.

Example holding_ptt_state :
  Runs.holding_ptt =
    {| status := Connected; talkMode := PushToTalk; isMuted := false;
       isAgentSpeaking := false; isUserSpeaking := false;
       isPTTActive := true; error := None; audioLevel := 0%float |}.
Proof. reflexivity. Qed.

(** C1: the reset done on [call_ended] misses [isPTTActive].  When the call
    ends while the user holds push-to-talk, [status] is back to idle and
    [isMuted], [isAgentSpeaking], [isUserSpeaking] are false, but
    [isPTTActive] is still true. *)
Theorem call_ended_leaves_isPTTActive :
  let s' := step Runs.holding_ptt call_ended in
  status s' = Idle /\ isMuted s' = false /\ isAgentSpeaking s' = false
  /\ isUserSpeaking s' = false /\ isPTTActive s' = true.
Proof. cbv zeta. repeat split. Qed.

End EnumVariantFacts.

Section AudioLevel.
Import EnumVariant.

(** Handling a frame only stores a number: it cannot throw, whatever the
    samples are. *)
Lemma on_audio_completes (samples : list float) :
  completion (on_audio samples) = Normal tt.
Proof. reflexivity. Qed.

Lemma on_audio_stores (s : Session) (samples : list float) :
  audioLevel (step s (audio samples)) = audio_level samples
  /\ calls_of s (audio samples) = [].
Proof. split; reflexivity. Qed.

(** Frames with samples: the mean absolute amplitude, times ten, capped
    at 1. *)
Example audio_level_quiet :
  audio_level [0.0625%float; (-0.0625)%float; 0%float; 0.125%float] = 0.625%float.
Proof. reflexivity. Qed.

Example audio_level_loud :
  audio_level [0.5%float; (-0.5)%float] = 1%float.
Proof. reflexivity. Qed.

Example audio_level_silence : audio_level [0%float; 0%float] = 0%float.
Proof. reflexivity. Qed.

(** C4: on an empty frame the handler completes normally, but the level it
    stores is [0 / 0 = NaN] (and [Math.min(NaN, 1) = NaN]), which is not 0
    and not a number of the interval from 0 to 1. *)
Theorem audio_empty_stores_nan :
  let s' := step Runs.in_call (audio []) in
  completion (on_audio []) = Normal tt
  /\ PrimFloat.is_nan (audioLevel s') = true
  /\ audioLevel s' <> 0%float
  /\ PrimFloat.leb 0%float (audioLevel s') = false
  /\ PrimFloat.leb (audioLevel s') 1%float = false.
Proof.
  cbv zeta. repeat split.
  intro H. apply (f_equal PrimFloat.is_nan) in H.
  vm_compute in H. discriminate H.
Qed.

End AudioLevel.

Section SdkError.
Import EnumVariant.

Example muted_agent_talking_state :
  Runs.muted_agent_talking =
    {| status := Connected; talkMode := Continuous; isMuted := true;
       isAgentSpeaking := true; isUserSpeaking := false;
       isPTTActive := false; error := None; audioLevel := 0%float |}.
Proof. reflexivity. Qed.

(** What the enum variant's [error] handler changes: [error] and [status],
    nothing else. *)
Lemma sdk_error_state (s : Session) :
  step s sdk_error =
    {| status := Error; talkMode := talkMode s; isMuted := isMuted s;
       isAgentSpeaking := isAgentSpeaking s; isUserSpeaking := isUserSpeaking s;
       isPTTActive := isPTTActive s;
       error := Some "Connection error. Please try again.";
       audioLevel := audioLevel s |}.
Proof. reflexivity. Qed.

(** C2, as stated, fails: in a call that is muted while the agent talks, the
    enum variant's [error] handler makes no call on the client and leaves
    [isAgentSpeaking] and [isMuted] true. *)
Lemma sdk_error_claim_fails :
  let s := Runs.muted_agent_talking in
  let s' := step s sdk_error in
  status s = Connected
  /\ ~ (In ClientStopCall (calls_of s sdk_error)
        /\ status s' = Error
        /\ isAgentSpeaking s' = false
        /\ isMuted s' = false).
Proof.
  cbv zeta. split; [reflexivity|].
  intros (_ & _ & H & _). vm_compute in H. discriminate H.
Qed.

(** C2, amended: while connected, an SDK error sets [status] to error and
    [error] to the non-empty message "Connection error. Please try again.",
    and the handler leaves [isAgentSpeaking] and [isMuted] as they were.  In
    the boolean variant the handler calls the client's [stopCall] and
    nothing else, sets the same message and clears [isCalling], and leaves
    [isAgentSpeaking] as it was; in the multi-flag variant it calls
    [stopCall] and nothing else, raises [hasError], clears [isCalling] and
    leaves [isMuted] as it was. *)
Theorem sdk_error_while_connected (s : Session)
    (b : BooleanVariant.Session) (m : MultiFlagVariant.Session) :
  status s = Connected ->
  let s' := step s sdk_error in
  let b' := BooleanVariant.step b BooleanVariant.sdk_error in
  let m' := MultiFlagVariant.step m MultiFlagVariant.sdk_error in
  (status s' = Error
   /\ error s' = Some "Connection error. Please try again."
   /\ (exists msg, error s' = Some msg /\ msg <> "")
   /\ isAgentSpeaking s' = isAgentSpeaking s
   /\ isMuted s' = isMuted s)
  /\ (BooleanVariant.calls_of b BooleanVariant.sdk_error = [ClientStopCall]
      /\ BooleanVariant.error b' = Some "Connection error. Please try again."
      /\ (exists msg, BooleanVariant.error b' = Some msg /\ msg <> "")
      /\ BooleanVariant.isCalling b' = false
      /\ BooleanVariant.isAgentSpeaking b' = BooleanVariant.isAgentSpeaking b)
  /\ (MultiFlagVariant.calls_of m MultiFlagVariant.sdk_error = [ClientStopCall]
      /\ MultiFlagVariant.hasError m' = true
      /\ MultiFlagVariant.isCalling m' = false
      /\ MultiFlagVariant.isMuted m' = MultiFlagVariant.isMuted m).
Proof.
  intros _. cbv zeta.
  repeat split; try reflexivity;
    (eexists; split; [reflexivity | discriminate]).
Qed.

Lemma sdk_error_while_connected_witness :
  status Runs.in_call = Connected
  /\ status (step Runs.in_call sdk_error) = Error.
Proof.
  split; [reflexivity|].
  apply (sdk_error_while_connected Runs.in_call
           BooleanVariant.initial MultiFlagVariant.initial).
  reflexivity.
Defined.

End SdkError.

Section StartInPushToTalk.
Import EnumVariant.

(** [startCall] writes [status] and [error] only, whatever the outcome. *)
Lemma startCall_frame (env : Env) (s : Session) :
  let s' := run (startCall env) s in
  talkMode s' = talkMode s /\ isMuted s' = isMuted s
  /\ isAgentSpeaking s' = isAgentSpeaking s
  /\ isUserSpeaking s' = isUserSpeaking s
  /\ isPTTActive s' = isPTTActive s /\ audioLevel s' = audioLevel s.
Proof.
  destruct env as [agent [ | name message | ] [ | code [ | | tok | ]] resolves];
    cbv zeta; unfold run, startCall, requestMicPermission, registerCall,
      Browser.registerCall, retellClient.startCall, RetellWebClient.startCall;
    cbn [mic backend sdk_startCall_resolves AGENT_ID];
    try destruct (JS.response_ok code); try destruct resolves;
    repeat split.
Qed.

(** The calls [startCall] makes never include the client's [mute]. *)
Lemma startCall_never_mutes (env : Env) :
  ~ In ClientMute (calls (effects (startCall env))).
Proof.
  destruct env as [agent [ | name message | ] [ | code [ | | tok | ]] resolves];
    unfold startCall, requestMicPermission, registerCall,
      Browser.registerCall, retellClient.startCall, RetellWebClient.startCall;
    cbn [mic backend sdk_startCall_resolves AGENT_ID];
    try destruct (JS.response_ok code); try destruct resolves;
    cbn; intuition discriminate.
Qed.

(** C3: the start path misses the mute that push-to-talk needs.  With
    push-to-talk chosen before the call, the session that [startCall] and
    then [call_started] produce is connected in push-to-talk mode with
    [isMuted] false, the client's [mute] was never called, and the status
    line reads "Hold to speak".  The two other ways into that mode do mute:
    [switchMode] to push-to-talk during a call calls [mute] and sets
    [isMuted], and the release of a press calls [mute]. *)
Theorem start_in_ptt_leaves_mic_open :
  let s0 := step initial (ClickMode PushToTalk) in
  let evs := [Click env_ok; call_started] in
  let s' := steps s0 evs in
  (talkMode s0 = PushToTalk
   /\ status s' = Connected
   /\ talkMode s' = PushToTalk
   /\ isMuted s' = false
   /\ ~ In ClientMute (trace s0 evs)
   /\ trace s0 evs = [GetUserMedia; StopTracks; PostCreateWebCall "agent_1";
                      ClientStartCall (Some "tok123") true]
   /\ getStatusText s' = "Hold to speak")
  /\ (calls_of Runs.in_call (ClickMode PushToTalk) = [ClientMute]
      /\ isMuted (step Runs.in_call (ClickMode PushToTalk)) = true)
  /\ calls_of (step s' MouseDown) MouseUp = [ClientMute].
Proof.
  cbv zeta. repeat split. cbn. intuition discriminate.
Qed.

(** The same for every state and every outcome: when [startCall] runs in
    push-to-talk mode, neither it nor the [call_started] handler that
    follows writes [isMuted] or calls the client's [mute]. *)
Lemma start_in_ptt_keeps_mute (env : Env) (s : Session) :
  talkMode s = PushToTalk ->
  let s1 := run (startCall env) s in
  let s2 := step s1 call_started in
  status s2 = Connected
  /\ talkMode s2 = PushToTalk
  /\ isMuted s2 = isMuted s
  /\ ~ In ClientMute (calls (effects (startCall env)) ++ calls_of s1 call_started).
Proof.
  intros Hmode. cbv zeta.
  destruct (startCall_frame env s) as (Htm & Hmu & _).
  repeat split.
  - cbn. rewrite Htm. exact Hmode.
  - cbn. exact Hmu.
  - intros Hin. apply in_app_or in Hin. destruct Hin as [Hin | Hin].
    + exact (startCall_never_mutes env Hin).
    + cbn in Hin. exact Hin.
Qed.

Lemma start_in_ptt_keeps_mute_witness :
  let s0 := step initial (ClickMode PushToTalk) in
  talkMode s0 = PushToTalk
  /\ isMuted (step (run (startCall env_ok) s0) call_started) = isMuted s0.
Proof.
  cbv zeta. split; [reflexivity|].
  apply (start_in_ptt_keeps_mute env_ok (step initial (ClickMode PushToTalk))).
  reflexivity.
Defined.

End StartInPushToTalk.

Section ToggleMute.
Import EnumVariant.

(** The enum variant's [toggleMute] does not read [status]: one client call
    and one write of [isMuted], decided by the [isMuted] of its render. *)
Lemma toggleMute_effects (v : Session) :
  effects (toggleMute v) =
    if isMuted v then [Ext ClientUnmute; SetState (setIsMuted false)]
    else [Ext ClientMute; SetState (setIsMuted true)].
Proof. unfold toggleMute. destruct (isMuted v); reflexivity. Qed.

Lemma status_not_connected (s : Session) :
  status s <> Connected -> CallStatus_eqb (status s) Connected = false.
Proof. destruct (status s); intros H; try reflexivity. now elim H. Qed.

(** C5: the M key does not toggle.  In a call that was just connected the
    first press of M calls the client's [mute] and sets [isMuted]; the
    second press, handled by the same listener (neither [status] nor
    [talkMode] changed, so it was not registered again), calls [mute] once
    more and leaves [isMuted] true, where a toggle would call [unmute] and
    clear it.  The mute button, which is bound anew at every render, does
    toggle: two clicks call [mute] then [unmute] and leave [isMuted] false. *)
Theorem m_key_second_press_does_not_flip :
  let m0 := mounted_steps mount [Click env_ok; call_started] in
  let m1 := mounted_step m0 (KeyDown Runs.KeyM) in
  let m2 := mounted_step m1 (KeyDown Runs.KeyM) in
  let b1 := mounted_step m0 ClickMute in
  let b2 := mounted_step b1 ClickMute in
  (status (current m0) = Connected /\ isMuted (current m0) = false)
  /\ (mounted_calls m0 (KeyDown Runs.KeyM) = [PreventDefault; ClientMute]
      /\ isMuted (current m1) = true
      /\ status (current m1) = Connected)
  /\ (mounted_calls m1 (KeyDown Runs.KeyM) = [PreventDefault; ClientMute]
      /\ isMuted (current m2) = true)
  /\ (mounted_calls m0 ClickMute = [ClientMute]
      /\ isMuted (current b1) = true
      /\ mounted_calls b1 ClickMute = [ClientUnmute]
      /\ isMuted (current b2) = false).
Proof. cbv zeta. repeat split. Qed.

(** The key listeners always belong to a render with the current [status]
    and [talkMode]; only their [isMuted] can be out of date. *)
Lemma key_render_tracks_deps (m : Mounted) (ev : Event) :
  let m' := mounted_step m ev in
  status (key_render m') = status (current m')
  /\ talkMode (key_render m') = talkMode (current m').
Proof.
  cbv zeta. unfold mounted_step. cbn [current key_render].
  set (s' := run (mounted_handler m ev) (current m)).
  destruct (deps_changed (key_render m) s') eqn:H; [split; reflexivity|].
  unfold deps_changed in H. apply orb_false_elim in H. destruct H as (Ht & Hs).
  apply negb_false_iff in Ht, Hs.
  destruct (talkMode (key_render m)), (talkMode s'); try discriminate Ht;
    destruct (status (key_render m)), (status s'); try discriminate Hs;
    split; reflexivity.
Qed.

(** The guard of the enum variant's [toggleMute] is at its call sites.
    When [status] is not connected the M key does nothing and the mute
    button is not rendered, so neither writes [isMuted] nor calls the
    client; when connected the M key calls [toggleMute] of the render [s],
    and so does the mute button where it is rendered.  The multi-flag
    variant's [toggleMute] returns at once when [isCalling] is false, and
    flips otherwise. *)
Lemma toggleMute_gated (s : Session) (e : KeyboardEvent)
    (m : MultiFlagVariant.Session) :
  code e = "KeyM" ->
  (status s <> Connected ->
     effects (handleKeyDown s e) = []
     /\ mute_button_rendered s = false
     /\ effects (mute_onClick s) = [])
  /\ (status s = Connected ->
        effects (handleKeyDown s e) = Ext PreventDefault :: effects (toggleMute s)
        /\ (mute_button_rendered s = true ->
              effects (mute_onClick s) = effects (toggleMute s))
        /\ calls (effects (toggleMute s))
             = [if isMuted s then ClientUnmute else ClientMute]
        /\ isMuted (run (toggleMute s) s) = negb (isMuted s)
        /\ status (run (toggleMute s) s) = Connected)
  /\ (MultiFlagVariant.isCalling m = false ->
        effects (MultiFlagVariant.toggleMute m) = [])
  /\ (MultiFlagVariant.isCalling m = true ->
        calls (effects (MultiFlagVariant.toggleMute m))
          = [if MultiFlagVariant.isMuted m then ClientUnmute else ClientMute]
        /\ MultiFlagVariant.isMuted
             (MultiFlagVariant.run (MultiFlagVariant.toggleMute m) m)
           = negb (MultiFlagVariant.isMuted m)).
Proof.
  intros Hcode.
  split; [| split; [| split]].
  - intros Hst. apply status_not_connected in Hst.
    unfold handleKeyDown, mute_onClick, mute_button_rendered.
    rewrite Hcode, Hst. cbn. repeat split.
  - intros Hst.
    unfold handleKeyDown, mute_onClick, run.
    rewrite Hcode, Hst, toggleMute_effects.
    destruct s as [st tm mu ag us ptt er al]. cbn in Hst |- *. subst st.
    destruct tm, mu; cbn; repeat split; intros H; discriminate H.
  - intros Hc. unfold MultiFlagVariant.toggleMute. rewrite Hc. reflexivity.
  - intros Hc. unfold MultiFlagVariant.run, MultiFlagVariant.toggleMute.
    rewrite Hc. destruct (MultiFlagVariant.isMuted m) eqn:Hm; cbn; split;
      reflexivity.
Qed.

Lemma toggleMute_gated_witness :
  code Runs.KeyM = "KeyM"
  /\ status initial <> Connected
  /\ effects (handleKeyDown initial Runs.KeyM) = []
  /\ status Runs.in_call = Connected
  /\ isMuted (run (toggleMute Runs.in_call) Runs.in_call) = true
  /\ MultiFlagVariant.isCalling MultiFlagVariant.initial = false
  /\ effects (MultiFlagVariant.toggleMute MultiFlagVariant.initial) = [].
Proof.
  pose proof (toggleMute_gated initial Runs.KeyM MultiFlagVariant.initial
                eq_refl) as (Hidle & _ & Hmf & _).
  pose proof (toggleMute_gated Runs.in_call Runs.KeyM MultiFlagVariant.initial
                eq_refl) as (_ & Hconn & _).
  split; [reflexivity|].
  split; [discriminate|].
  split; [apply Hidle; discriminate|].
  split; [reflexivity|].
  split; [apply Hconn; reflexivity|].
  split; [reflexivity|].
  apply Hmf; reflexivity.
Defined.

End ToggleMute.

Section ConnectedOnlyByEvent.
Import EnumVariant.

(** No outcome of the awaited collaborators makes [startCall] write
    [status = connected]. *)
Lemma startCall_never_sets_connected (env : Env) :
  ~ In (setStatus Connected) (setters (effects (startCall env))).
Proof.
  destruct env as [agent [ | name message | ] [ | code [ | | tok | ]] resolves];
    unfold startCall, requestMicPermission, registerCall,
      Browser.registerCall, retellClient.startCall, RetellWebClient.startCall;
    cbn [mic backend sdk_startCall_resolves AGENT_ID];
    try destruct (JS.response_ok code); try destruct resolves;
    cbn; intuition discriminate.
Qed.

(** In the enum variant the only handler that writes [status = connected]
    is the one of [call_started]. *)
Lemma only_call_started_sets_connected (v : Session) (ev : Event) :
  ev <> call_started ->
  ~ In (setStatus Connected) (setters (effects (handler v ev))).
Proof.
  intros Hev.
  destruct ev as [ | | | | | samples | env | | | | | | mode | | e | e];
    try (now elim Hev); cbn [handler].
  - cbn; intuition discriminate.
  - cbn; intuition discriminate.
  - cbn; intuition discriminate.
  - cbn; intuition discriminate.
  - cbn; intuition discriminate.
  - unfold main_onClick.
    destruct (CallStatus_eqb (status v) Idle || CallStatus_eqb (status v) Error).
    + apply startCall_never_sets_connected.
    + cbn; intuition discriminate.
  - unfold main_onPress, handlePTTStart.
    destruct (status v), (talkMode v); cbn; intuition discriminate.
  - unfold main_onRelease, handlePTTEnd.
    destruct (talkMode v); cbn; intuition discriminate.
  - unfold main_onRelease, handlePTTEnd.
    destruct (talkMode v); cbn; intuition discriminate.
  - unfold main_onPress, handlePTTStart.
    destruct (status v), (talkMode v); cbn; intuition discriminate.
  - unfold main_onRelease, handlePTTEnd.
    destruct (talkMode v); cbn; intuition discriminate.
  - unfold switchMode.
    destruct (status v), mode; cbn; intuition discriminate.
  - unfold mute_onClick, mute_button_rendered, toggleMute.
    destruct (status v), (talkMode v), (isMuted v); cbn; intuition discriminate.
  - unfold handleKeyDown, handlePTTStart, toggleMute.
    destruct (String.eqb (code e) "Space"), (String.eqb (code e) "KeyM"),
      (status v), (talkMode v), (isMuted v); cbn; intuition discriminate.
  - unfold handleKeyUp, handlePTTEnd.
    destruct (String.eqb (code e) "Space"), (talkMode v);
      cbn; intuition discriminate.
Qed.

(** C6, as stated, fails for the boolean variant: [toggleConversation]
    itself writes [isCalling = true] once the client's [startCall] has
    resolved; no [call_started] event is involved, and the handler of that
    event does not write [isCalling]. *)
Lemma direct_connect_claim_fails :
  let c := BooleanVariant.toggleConversation env_ok BooleanVariant.initial in
  In (BooleanVariant.setIsCalling true) (setters (effects c))
  /\ BooleanVariant.isCalling (BooleanVariant.run c BooleanVariant.initial) = true
  /\ setters (effects BooleanVariant.on_call_started)
     = [BooleanVariant.setError None].
Proof. cbv zeta. split; [cbn; auto | split; reflexivity]. Qed.

(** C6, amended: in the enum variant [startCall] never writes
    [status = connected], and no handler other than the one of
    [call_started] does; that handler writes it.  In the boolean and the
    multi-flag variant, when no call is up (and, in the multi-flag variant,
    the button is enabled and the microphone granted), the registration
    gives a non-empty token and the client's [startCall] resolves,
    [toggleConversation] writes [isCalling = true] itself, right after the
    call on the client; the [call_started] handlers of these two variants
    do not write [isCalling]. *)
Theorem connected_only_by_call_started (env : Env) (v : Session) (ev : Event)
    (b : BooleanVariant.Session) (m : MultiFlagVariant.Session)
    (code : Z) (tok : string) (agent : string) :
  ev <> call_started ->
  tok <> "" ->
  (200 <= code <= 299)%Z ->
  BooleanVariant.isCalling b = false ->
  MultiFlagVariant.isCalling m = false ->
  MultiFlagVariant.main_disabled m = false ->
  let env' := {| AGENT_ID := agent; mic := MicGranted;
                 backend := FetchResponse code (JsonObject (Some tok));
                 sdk_startCall_resolves := true |} in
  ~ In (setStatus Connected) (setters (effects (startCall env)))
  /\ ~ In (setStatus Connected) (setters (effects (handler v ev)))
  /\ setters (effects (handler v call_started))
     = [setStatus Connected; setError None]
  /\ effects (BooleanVariant.toggleConversation env' b)
     = [SetState (BooleanVariant.setError None);
        Ext (PostCreateWebCall agent);
        Ext (ClientStartCall (Some tok) false);
        SetState (BooleanVariant.setIsCalling true)]
  /\ effects (MultiFlagVariant.toggleConversation env' m)
     = [SetState (MultiFlagVariant.setIsCheckingMic true);
        Ext GetUserMedia; Ext StopTracks;
        SetState (MultiFlagVariant.setErrorDetail "");
        SetState (MultiFlagVariant.setIsTransitioning true);
        SetState (MultiFlagVariant.setHasError false);
        Ext (PostCreateWebCall agent);
        Ext (ClientStartCall (Some tok) false);
        SetState (MultiFlagVariant.setIsCalling true);
        SetState (MultiFlagVariant.setIsCheckingMic false)]
  /\ effects (BooleanVariant.handler b BooleanVariant.call_started)
     = [SetState (BooleanVariant.setError None)]
  /\ effects (MultiFlagVariant.handler m MultiFlagVariant.call_started)
     = [SetState (MultiFlagVariant.setHasError false);
        SetState (MultiFlagVariant.setIsTransitioning false);
        SetState (MultiFlagVariant.setIsCheckingMic false)].
Proof.
  intros Hev Htok Hcode Hb Hm Hdis. cbv zeta.
  assert (Hok : JS.response_ok code = true).
  { unfold JS.response_ok. apply andb_true_intro. split; apply Z.leb_le; lia. }
  assert (Htruthy : JS.truthy (Some tok) = true).
  { cbn. destruct (String.eqb_spec tok ""); [contradiction | reflexivity]. }
  split; [apply startCall_never_sets_connected|].
  split; [apply only_call_started_sets_connected; exact Hev|].
  split; [reflexivity|].
  split; [| split; [| split; reflexivity]].
  - unfold BooleanVariant.toggleConversation, BooleanVariant.registerCall,
      Browser.registerCall, Browser.access_token_of.
    rewrite Hb. cbn [backend AGENT_ID].
    rewrite Hok. cbn [negb]. cbn -[JS.truthy]. rewrite Htruthy. reflexivity.
  - unfold MultiFlagVariant.toggleConversation, MultiFlagVariant.registerCall,
      MultiFlagVariant.checkMicrophonePermission,
      Browser.registerCall, Browser.access_token_of.
    unfold MultiFlagVariant.main_disabled in Hdis.
    rewrite Hdis, Hm. cbn [backend AGENT_ID mic].
    rewrite Hok. cbn [negb]. cbn -[JS.truthy]. rewrite Htruthy. reflexivity.
Qed.

Lemma connected_only_by_call_started_witness :
  Click env_ok <> call_started
  /\ "tok123" <> ""
  /\ (200 <= 200 <= 299)%Z
  /\ BooleanVariant.isCalling BooleanVariant.initial = false
  /\ MultiFlagVariant.isCalling MultiFlagVariant.initial = false
  /\ MultiFlagVariant.main_disabled MultiFlagVariant.initial = false
  /\ ~ In (setStatus Connected) (setters (effects (handler initial (Click env_ok)))).
Proof.
  split; [discriminate|].
  split; [discriminate|].
  split; [lia|].
  split; [reflexivity|].
  split; [reflexivity|].
  split; [reflexivity|].
  apply (connected_only_by_call_started env_ok initial (ev := Click env_ok)
           BooleanVariant.initial MultiFlagVariant.initial
           (code := 200) (tok := "tok123") "agent_1");
    [discriminate | discriminate | lia | reflexivity | reflexivity | reflexivity].
Defined.

End ConnectedOnlyByEvent.

Section SwitchTalkMode.
Import EnumVariant.

(** C7: while connected, switching to push-to-talk calls the client's
    [mute] and leaves [isMuted] true, switching to continuous calls
    [unmute] and leaves [isMuted] false; in both cases nothing else is
    called on the client and [status] stays connected. *)
Theorem switchMode_while_connected (s : Session) :
  status s = Connected ->
  (let s' := step s (ClickMode PushToTalk) in
   isMuted s' = true
   /\ calls_of s (ClickMode PushToTalk) = [ClientMute]
   /\ talkMode s' = PushToTalk
   /\ status s' = Connected)
  /\ (let s' := step s (ClickMode Continuous) in
      isMuted s' = false
      /\ calls_of s (ClickMode Continuous) = [ClientUnmute]
      /\ talkMode s' = Continuous
      /\ status s' = Connected).
Proof.
  intros Hst. cbv zeta.
  unfold step, calls_of, run, handler, switchMode.
  rewrite Hst. cbn. rewrite Hst. repeat split.
Qed.

Lemma switchMode_while_connected_witness :
  status Runs.in_call = Connected
  /\ isMuted (step Runs.in_call (ClickMode PushToTalk)) = true
  /\ isMuted (step Runs.muted_agent_talking (ClickMode Continuous)) = false.
Proof.
  split; [reflexivity|].
  split.
  - apply (switchMode_while_connected Runs.in_call). reflexivity.
  - apply (switchMode_while_connected Runs.muted_agent_talking). reflexivity.
Defined.

(** Out of a call the mode switch only records the preference. *)
Lemma switchMode_not_connected (s : Session) (mode : TalkMode) :
  status s <> Connected ->
  effects (switchMode s mode) = [SetState (setTalkMode mode)].
Proof.
  intros Hst. unfold switchMode.
  destruct (status s); try reflexivity. now elim Hst.
Qed.

End SwitchTalkMode.

Section RegistrationFailure.
Import EnumVariant.

Lemma response_not_ok (code : Z) :
  (code < 200 \/ 299 < code)%Z -> JS.response_ok code = false.
Proof.
  intros H. unfold JS.response_ok. apply andb_false_iff.
  destruct H; [left | right]; apply Z.leb_gt; assumption.
Qed.

(** C8: when the microphone is granted and the registration answers with a
    status outside 200-299, a start from idle writes [status] connecting
    and then error, ends with [status] error and a non-empty [error]
    message, and makes no [startCall] on the client. *)
Theorem startCall_registration_rejected (env : Env) (s : Session)
    (code : Z) (json : JsonBody) :
  status s = Idle ->
  mic env = MicGranted ->
  backend env = FetchResponse code json ->
  (code < 200 \/ 299 < code)%Z ->
  let c := handler s (Click env) in
  let s' := step s (Click env) in
  status_writes (setters (effects c)) = [Connecting; Error]
  /\ status s' = Error
  /\ (exists msg, error s' = Some msg /\ msg <> "")
  /\ calls (effects c)
     = [GetUserMedia; StopTracks; PostCreateWebCall (AGENT_ID env)]
  /\ (forall accessToken emitRawAudioSamples,
        ~ In (ClientStartCall accessToken emitRawAudioSamples) (calls (effects c))).
Proof.
  intros Hst Hmic Hback Hcode. cbv zeta.
  apply response_not_ok in Hcode.
  assert (Heff : effects (handler s (Click env)) =
                 [SetState (setStatus Connecting); SetState (setError None);
                  Ext GetUserMedia; Ext StopTracks;
                  Ext (PostCreateWebCall (AGENT_ID env));
                  SetState (setError
                    (Some "Failed to connect. Check your microphone permissions."));
                  SetState (setStatus Error)]).
  { unfold handler, main_onClick. rewrite Hst. cbn [CallStatus_eqb orb].
    unfold startCall, requestMicPermission, registerCall,
      Browser.registerCall, Browser.getUserMedia.
    rewrite Hmic, Hback, Hcode. reflexivity. }
  unfold step, run. rewrite Heff.
  split; [reflexivity|].
  split; [reflexivity|].
  split; [eexists; split; [reflexivity | discriminate]|].
  split; [reflexivity|].
  intros accessToken emitRawAudioSamples. cbn. intuition discriminate.
Qed.

Lemma startCall_registration_rejected_witness :
  status initial = Idle
  /\ mic (env_backend 500 JsonInvalid) = MicGranted
  /\ backend (env_backend 500 JsonInvalid) = FetchResponse 500 JsonInvalid
  /\ (500 < 200 \/ 299 < 500)%Z
  /\ status (step initial (Click (env_backend 500 JsonInvalid))) = Error.
Proof.
  split; [reflexivity|].
  split; [reflexivity|].
  split; [reflexivity|].
  split; [right; lia|].
  apply (startCall_registration_rejected (env_backend 500 JsonInvalid) initial
           (code := 500) (json := JsonInvalid));
    [reflexivity | reflexivity | reflexivity | right; lia].
Defined.

End RegistrationFailure.

Section PushToTalkKey.
Import EnumVariant.

Lemma holding_connected_ptt (s : Session) :
  status s = Connected -> talkMode s = PushToTalk -> isPTTActive s = true ->
  forall e, code e = "Space" ->
  step s (KeyDown e) = s
  /\ calls_of s (KeyDown e) = [PreventDefault; ClientUnmute].
Proof.
  intros Hst Htm Hptt e Hcode.
  unfold step, calls_of, run, handler, handleKeyDown, handlePTTStart.
  rewrite Hcode, Hst, Htm. cbn.
  destruct s as [st tm mu ag us ptt er al]. cbn in *. subst. split; reflexivity.
Qed.

(** C9, as stated, fails: while push-to-talk is held ([isPTTActive] true),
    a repeated key-down of the space bar runs the press action again and
    calls the client's [unmute] again. *)
Lemma key_repeat_claim_fails :
  let s := Runs.holding_ptt in
  isPTTActive s = true
  /\ repeat (Runs.Space true) = true
  /\ In ClientUnmute (calls_of s (KeyDown (Runs.Space true))).
Proof. cbv zeta. split; [reflexivity|]. split; [reflexivity|]. cbn. auto. Qed.

(** C9, amended: in a connected push-to-talk session every key-down of the
    space bar, repeated or not and whether or not [isPTTActive] is already
    true, runs the press action: it writes [isPTTActive = true] and calls
    the client's [unmute] once, so [n] key-downs of a held key leave the
    state as after the first and call [unmute] [n] times.  The key-up
    that follows runs the release action once: [isPTTActive] becomes false
    and the client's [mute] is called once. *)
Theorem key_repeat_reruns_press (s : Session) (e : KeyboardEvent) (n : nat) :
  status s = Connected ->
  talkMode s = PushToTalk ->
  code e = "Space" ->
  let held := step s (KeyDown e) in
  isPTTActive held = true
  /\ calls_of s (KeyDown e) = [PreventDefault; ClientUnmute]
  /\ steps held (List.repeat (KeyDown e) n) = held
  /\ List.length (filter is_unmute (trace held (List.repeat (KeyDown e) n))) = n
  /\ isPTTActive (step held (KeyUp e)) = false
  /\ calls_of held (KeyUp e) = [PreventDefault; ClientMute].
Proof.
  intros Hst Htm Hcode. cbv zeta.
  assert (Hheld : status (step s (KeyDown e)) = Connected
                  /\ talkMode (step s (KeyDown e)) = PushToTalk
                  /\ isPTTActive (step s (KeyDown e)) = true).
  { unfold step, run, handler, handleKeyDown, handlePTTStart.
    rewrite Hcode, Hst, Htm. cbn. rewrite Hst, Htm. repeat split. }
  destruct Hheld as (Hst' & Htm' & Hptt').
  set (held := step s (KeyDown e)) in *.
  split; [exact Hptt'|].
  split.
  { unfold calls_of, handler, handleKeyDown, handlePTTStart.
    rewrite Hcode, Hst, Htm. reflexivity. }
  split.
  { induction n as [| n IH]; [reflexivity|].
    cbn [List.repeat steps fold_left].
    destruct (holding_connected_ptt held Hst' Htm' Hptt' e Hcode) as (Hsame & _).
    rewrite Hsame. exact IH. }
  split.
  { induction n as [| n IH]; [reflexivity|].
    cbn [List.repeat trace].
    destruct (holding_connected_ptt held Hst' Htm' Hptt' e Hcode) as (Hsame & Hcalls).
    rewrite Hsame, Hcalls. cbn. f_equal. exact IH. }
  split.
  { unfold step, run, handler, handleKeyUp, handlePTTEnd.
    rewrite Hcode, Htm'. reflexivity. }
  unfold calls_of, handler, handleKeyUp, handlePTTEnd.
  rewrite Hcode, Htm'. reflexivity.
Qed.

Lemma key_repeat_reruns_press_witness :
  status Runs.holding_ptt = Connected
  /\ talkMode Runs.holding_ptt = PushToTalk
  /\ code (Runs.Space true) = "Space"
  /\ List.length
       (filter is_unmute
          (trace (step Runs.holding_ptt (KeyDown (Runs.Space true)))
             (List.repeat (KeyDown (Runs.Space true)) 3))) = 3%nat.
Proof.
  split; [reflexivity|].
  split; [reflexivity|].
  split; [reflexivity|].
  apply (key_repeat_reruns_press Runs.holding_ptt (Runs.Space true) 3);
    reflexivity.
Defined.

End PushToTalkKey.

Section EmptyToken.

Lemma falsy_token (tok : option string) :
  tok = None \/ tok = Some "" -> JS.truthy tok = false.
Proof. intros [-> | ->]; reflexivity. Qed.

Lemma response_is_ok (code : Z) :
  (200 <= code <= 299)%Z -> JS.response_ok code = true.
Proof.
  intros H. unfold JS.response_ok. apply andb_true_intro.
  split; apply Z.leb_le; lia.
Qed.

(** C10: the registration answers 2xx with an object whose [access_token]
    is missing or empty.  In the boolean variant a start then makes no
    [startCall] on the client, its only write is [setError(null)], and it
    ends with [error] null and [isCalling] false.  In the multi-flag variant
    (microphone granted) it makes no [startCall] either, never writes
    [hasError = true] or a non-empty [errorDetail], and leaves
    [isTransitioning] true, so the main button stays disabled and a further
    click is not dispatched. *)
Theorem empty_token_is_silent (env : Env) (code : Z) (tok : option string)
    (b : BooleanVariant.Session) (m : MultiFlagVariant.Session) :
  backend env = FetchResponse code (JsonObject tok) ->
  (200 <= code <= 299)%Z ->
  tok = None \/ tok = Some "" ->
  mic env = MicGranted ->
  BooleanVariant.isCalling b = false ->
  MultiFlagVariant.isCalling m = false ->
  MultiFlagVariant.main_disabled m = false ->
  (let b' := BooleanVariant.step b (BooleanVariant.Click env) in
 BooleanVariant.calls_of b (BooleanVariant.Click env)
   = [PostCreateWebCall (AGENT_ID env)]
 /\ setters (effects (BooleanVariant.handler b (BooleanVariant.Click env)))
    = [BooleanVariant.setError None]
 /\ BooleanVariant.error b' = None
   /\ BooleanVariant.isCalling b' = false)
  /\ (let m' := MultiFlagVariant.step m (MultiFlagVariant.Click env) in
      MultiFlagVariant.calls_of m (MultiFlagVariant.Click env)
      = [GetUserMedia; StopTracks; PostCreateWebCall (AGENT_ID env)]
    /\ setters (effects (MultiFlagVariant.handler m (MultiFlagVariant.Click env)))
       = [MultiFlagVariant.setIsCheckingMic true;
          MultiFlagVariant.setErrorDetail "";
          MultiFlagVariant.setIsTransitioning true;
          MultiFlagVariant.setHasError false;
          MultiFlagVariant.setIsCheckingMic false]
    /\ MultiFlagVariant.hasError m' = false
      /\ MultiFlagVariant.errorDetail m' = ""
      /\ MultiFlagVariant.isCalling m' = false
      /\ MultiFlagVariant.isCheckingMic m' = false
      /\ MultiFlagVariant.isTransitioning m' = true
      /\ MultiFlagVariant.main_disabled m' = true
      /\ (forall env', effects (MultiFlagVariant.main_onClick env' m') = [])).
Proof.
  intros Hback Hcode Htok Hmic Hb Hm Hdis. cbv zeta.
  apply response_is_ok in Hcode. apply falsy_token in Htok.
  assert (Hbool : effects (BooleanVariant.toggleConversation env b) =
                  [SetState (BooleanVariant.setError None);
                   Ext (PostCreateWebCall (AGENT_ID env))]).
  { unfold BooleanVariant.toggleConversation, BooleanVariant.registerCall,
      Browser.registerCall, Browser.access_token_of.
    rewrite Hb, Hback, Hcode. cbn -[JS.truthy]. rewrite Htok. reflexivity. }
  assert (Hmulti : effects (MultiFlagVariant.main_onClick env m) =
                   [SetState (MultiFlagVariant.setIsCheckingMic true);
                    Ext GetUserMedia; Ext StopTracks;
                    SetState (MultiFlagVariant.setErrorDetail "");
                    SetState (MultiFlagVariant.setIsTransitioning true);
                    SetState (MultiFlagVariant.setHasError false);
                    Ext (PostCreateWebCall (AGENT_ID env));
                    SetState (MultiFlagVariant.setIsCheckingMic false)]).
  { unfold MultiFlagVariant.main_onClick. rewrite Hdis.
    unfold MultiFlagVariant.toggleConversation, MultiFlagVariant.registerCall,
      MultiFlagVariant.checkMicrophonePermission,
      Browser.registerCall, Browser.access_token_of, Browser.getUserMedia.
    unfold MultiFlagVariant.main_disabled in Hdis.
    rewrite Hdis, Hm, Hmic, Hback, Hcode. cbn -[JS.truthy].
    rewrite Htok. reflexivity. }
  split.
  - unfold BooleanVariant.step, BooleanVariant.calls_of, BooleanVariant.run,
      BooleanVariant.handler.
    rewrite Hbool. cbn. rewrite Hb. repeat split.
  - unfold MultiFlagVariant.step, MultiFlagVariant.calls_of, MultiFlagVariant.run,
      MultiFlagVariant.handler.
    rewrite Hmulti. cbn. rewrite Hm. repeat split.
Qed.

Lemma empty_token_is_silent_witness :
  backend (env_backend 200 (JsonObject (Some "")))
    = FetchResponse 200 (JsonObject (Some ""))
  /\ (200 <= 200 <= 299)%Z
  /\ (Some "" = None \/ Some "" = Some "")
  /\ mic (env_backend 200 (JsonObject (Some ""))) = MicGranted
  /\ BooleanVariant.isCalling BooleanVariant.initial = false
  /\ MultiFlagVariant.isCalling MultiFlagVariant.initial = false
  /\ MultiFlagVariant.main_disabled MultiFlagVariant.initial = false
  /\ MultiFlagVariant.isTransitioning
       (MultiFlagVariant.step MultiFlagVariant.initial
          (MultiFlagVariant.Click (env_backend 200 (JsonObject (Some "")))))
     = true.
Proof.
  split; [reflexivity|].
  split; [lia|].
  split; [right; reflexivity|].
  split; [reflexivity|].
  split; [reflexivity|].
  split; [reflexivity|].
  split; [reflexivity|].
  apply (empty_token_is_silent (env_backend 200 (JsonObject (Some "")))
           (code := 200) (tok := Some "")
           BooleanVariant.initial MultiFlagVariant.initial);
    [reflexivity | lia | right; reflexivity | reflexivity
     | reflexivity | reflexivity | reflexivity].
Defined.

End EmptyToken.

Section Scenarios.
Import EnumVariant.

(** The multi-flag variant's [call_ended] handler clears [isCalling],
    [hasError], [isTransitioning] and [isMuted]. *)
Lemma multi_flag_call_ended (m : MultiFlagVariant.Session) :
  MultiFlagVariant.step m MultiFlagVariant.call_ended =
    {| MultiFlagVariant.isCalling := false;
       MultiFlagVariant.hasError := false;
       MultiFlagVariant.isTransitioning := false;
       MultiFlagVariant.isCheckingMic := MultiFlagVariant.isCheckingMic m;
       MultiFlagVariant.isMuted := false;
       MultiFlagVariant.errorDetail := MultiFlagVariant.errorDetail m |}.
Proof. reflexivity. Qed.

(** The agent-talking events write [isAgentSpeaking] and nothing else, and
    make no call on a collaborator. *)
Theorem agent_talking_events (s : Session) :
  step s agent_start_talking =
    {| status := status s; talkMode := talkMode s; isMuted := isMuted s;
       isAgentSpeaking := true; isUserSpeaking := isUserSpeaking s;
       isPTTActive := isPTTActive s; error := error s;
       audioLevel := audioLevel s |}
  /\ step s agent_stop_talking =
    {| status := status s; talkMode := talkMode s; isMuted := isMuted s;
       isAgentSpeaking := false; isUserSpeaking := isUserSpeaking s;
       isPTTActive := isPTTActive s; error := error s;
       audioLevel := audioLevel s |}
  /\ calls_of s agent_start_talking = []
  /\ calls_of s agent_stop_talking = [].
Proof. repeat split. Qed.

(** In continuous mode the push-to-talk inputs (mouse, touch, space bar)
    have no handler that does anything: no write, no call. *)
Theorem ptt_inert_in_continuous (s : Session) (e : KeyboardEvent) :
  talkMode s = Continuous ->
  code e = "Space" ->
  effects (handler s MouseDown) = []
  /\ effects (handler s MouseUp) = []
  /\ effects (handler s MouseLeave) = []
  /\ effects (handler s TouchStart) = []
  /\ effects (handler s TouchEnd) = []
  /\ effects (handler s (KeyDown e)) = []
  /\ effects (handler s (KeyUp e)) = [].
Proof.
  intros Htm Hcode.
  unfold handler, main_onPress, main_onRelease, handleKeyDown, handleKeyUp.
  rewrite Htm, Hcode. repeat split.
Qed.

Lemma ptt_inert_in_continuous_witness :
  talkMode Runs.in_call = Continuous
  /\ code (Runs.Space false) = "Space"
  /\ effects (handler Runs.in_call (KeyDown (Runs.Space false))) = [].
Proof.
  split; [reflexivity|].
  split; [reflexivity|].
  apply (ptt_inert_in_continuous Runs.in_call (Runs.Space false));
    reflexivity.
Defined.

(** A start with the microphone granted, a 2xx registration carrying a
    token and an SDK that accepts the call: the client's [startCall] gets
    that token and asks for raw samples, [status] is left at connecting,
    and the [call_started] event that follows makes it connected with
    [error] null. *)
Theorem successful_start (env : Env) (s : Session) (code : Z) (tok : string) :
  mic env = MicGranted ->
  backend env = FetchResponse code (JsonObject (Some tok)) ->
  (200 <= code <= 299)%Z ->
  sdk_startCall_resolves env = true ->
  let s1 := run (startCall env) s in
  let s2 := step s1 call_started in
  calls (effects (startCall env))
    = [GetUserMedia; StopTracks; PostCreateWebCall (AGENT_ID env);
       ClientStartCall (Some tok) true]
  /\ status s1 = Connecting
  /\ status s2 = Connected
  /\ error s2 = None.
Proof.
  intros Hmic Hback Hcode Hres. cbv zeta.
  apply response_is_ok in Hcode.
  assert (Heff : effects (startCall env) =
                 [SetState (setStatus Connecting); SetState (setError None);
                  Ext GetUserMedia; Ext StopTracks;
                  Ext (PostCreateWebCall (AGENT_ID env));
                  Ext (ClientStartCall (Some tok) true)]).
  { unfold startCall, requestMicPermission, registerCall,
      Browser.registerCall, Browser.getUserMedia, Browser.access_token_of,
      retellClient.startCall, RetellWebClient.startCall.
    rewrite Hmic, Hback, Hcode, Hres. reflexivity. }
  unfold step, run. rewrite Heff. repeat split.
Qed.

Lemma successful_start_witness :
  mic env_ok = MicGranted
  /\ backend env_ok = FetchResponse 200 (JsonObject (Some "tok123"))
  /\ (200 <= 200 <= 299)%Z
  /\ sdk_startCall_resolves env_ok = true
  /\ calls (effects (startCall env_ok))
     = [GetUserMedia; StopTracks; PostCreateWebCall "agent_1";
        ClientStartCall (Some "tok123") true].
Proof.
  split; [reflexivity|].
  split; [reflexivity|].
  split; [lia|].
  split; [reflexivity|].
  apply (successful_start env_ok initial (code := 200) (tok := "tok123"));
    [reflexivity | reflexivity | lia | reflexivity].
Defined.

End Scenarios.


(** * Further properties of the enum variant *)

Section StartCallOutcomes.
Import EnumVariant.

Ltac start_cases env :=
  destruct env as [agent [ | name message | ] [ | code [ | | tok | ]] resolves];
  unfold run, startCall, requestMicPermission, registerCall,
    Browser.registerCall, retellClient.startCall, RetellWebClient.startCall,
    registered, mic_granted;
  cbn [mic backend sdk_startCall_resolves AGENT_ID];
  try destruct (JS.response_ok code); try destruct resolves.

(** Where [startCall] leaves the state, for every outcome of the microphone
    probe, the registration and the SDK: [status] is connecting when all
    three succeed and error otherwise (never idle, never connected); [error]
    is null on success, the permission message when the probe fails and the
    connection message for every later failure; no other cell is written. *)
Theorem startCall_final_state (env : Env) (s : Session) :
  let accepted :=
    mic_granted env
    && (match registered env with Some _ => true | None => false end)
    && sdk_startCall_resolves env in
  run (startCall env) s =
    {| status := if accepted then Connecting else Error;
       talkMode := talkMode s; isMuted := isMuted s;
       isAgentSpeaking := isAgentSpeaking s; isUserSpeaking := isUserSpeaking s;
       isPTTActive := isPTTActive s;
       error :=
         if accepted then None
         else if mic_granted env
              then Some "Failed to connect. Check your microphone permissions."
              else Some "Microphone access denied. Please allow microphone in your browser settings.";
       audioLevel := audioLevel s |}.
Proof. cbv zeta. start_cases env; reflexivity. Qed.

(** The calls [startCall] makes, for every outcome.  Without a microphone
    API nothing is called; a rejected probe is the only call; a granted
    probe is followed at once by the release of its tracks and then by the
    registration; the client's [startCall] is called exactly when the
    registration answered 2xx with a body that parses and is not [null]:
    an object, with whatever its [access_token] is, or a number, string,
    boolean or array, with [undefined]. *)
Theorem startCall_calls (env : Env) :
  calls (effects (startCall env)) =
    match mic env with
    | MicUnavailable => []
    | MicRejected _ _ => [GetUserMedia]
    | MicGranted =>
        [GetUserMedia; StopTracks; PostCreateWebCall (AGENT_ID env)]
        ++ match registered env with
           | Some t => [ClientStartCall t true]
           | None => []
           end
    end.
Proof. start_cases env; reflexivity. Qed.

(** The enum variant does not test the token: when a 2xx registration
    answers with an object whose [access_token] is missing or empty, the
    client's [startCall] is still called, with that missing or empty token,
    and [status] stays connecting if the SDK accepts it. *)
Theorem startCall_missing_token (env : Env) (s : Session) (tok : option string) :
  mic env = MicGranted ->
  registered env = Some tok ->
  JS.truthy tok = false ->
  In (ClientStartCall tok true) (calls (effects (startCall env)))
  /\ (sdk_startCall_resolves env = true ->
      status (run (startCall env) s) = Connecting
      /\ error (run (startCall env) s) = None).
Proof.
  intros Hmic Hreg _.
  destruct env as [agent m [ | code [ | | t | ]] resolves];
    cbn [mic backend sdk_startCall_resolves] in *; subst m;
    unfold registered in Hreg; cbn [backend] in Hreg; try discriminate Hreg.
  all: unfold run, startCall, requestMicPermission, registerCall,
    Browser.registerCall, retellClient.startCall, RetellWebClient.startCall.
  all: cbn [mic backend sdk_startCall_resolves AGENT_ID].
  all: destruct (JS.response_ok code); [| discriminate Hreg].
  all: injection Hreg as <-.
  all: split; [destruct resolves; cbn; auto | intros ->; split; reflexivity].
Qed.

Lemma startCall_missing_token_witness :
  mic (env_backend 200 (JsonObject None)) = MicGranted
  /\ registered (env_backend 200 (JsonObject None)) = Some None
  /\ JS.truthy None = false
  /\ In (ClientStartCall None true)
        (calls (effects (startCall (env_backend 200 (JsonObject None)))))
  /\ sdk_startCall_resolves (env_backend 200 (JsonObject None)) = true
  /\ status (run (startCall (env_backend 200 (JsonObject None))) initial)
     = Connecting.
Proof.
  pose proof (startCall_missing_token (env_backend 200 (JsonObject None)) initial
                (tok := None) eq_refl eq_refl eq_refl) as (Hcall & Hstate).
  split; [reflexivity|].
  split; [reflexivity|].
  split; [reflexivity|].
  split; [exact Hcall|].
  split; [reflexivity|].
  apply Hstate. reflexivity.
Defined.

End StartCallOutcomes.

(** Case analysis on what a handler of the enum variant reads: the cells
    of its render, the kind of event, the key, and the outcomes in [Env]. *)
Ltac enum_env_cases env :=
  destruct env as [?agent [ | ?name ?message | ] [ | ?code [ | | ?tok | ]] ?resolves];
  unfold EnumVariant.startCall, EnumVariant.requestMicPermission,
    EnumVariant.registerCall, Browser.registerCall,
    EnumVariant.retellClient.startCall, RetellWebClient.startCall;
  cbn [mic backend sdk_startCall_resolves AGENT_ID];
  try match goal with |- context [JS.response_ok ?c] => destruct (JS.response_ok c) end;
  try match goal with r : bool |- _ => destruct r end.

Ltac enum_step_cases s ev :=
  destruct s as [st tm mu ag us ptt er al];
  destruct ev as [ | | | | | ?samples | ?env | | | | | | ?mode | | ?e | ?e];
  unfold EnumVariant.step, EnumVariant.calls_of, EnumVariant.run,
    EnumVariant.handler, EnumVariant.main_onClick, EnumVariant.main_onPress,
    EnumVariant.main_onRelease, EnumVariant.mute_onClick,
    EnumVariant.mute_button_rendered, EnumVariant.handleKeyDown,
    EnumVariant.handleKeyUp, EnumVariant.handlePTTStart,
    EnumVariant.handlePTTEnd, EnumVariant.switchMode, EnumVariant.toggleMute,
    EnumVariant.stopCall;
  cbn [EnumVariant.status EnumVariant.talkMode EnumVariant.isMuted];
  try match goal with
      | |- context [String.eqb (EnumVariant.code ?k) "Space"] =>
          destruct (String.eqb (EnumVariant.code k) "Space");
          destruct (String.eqb (EnumVariant.code k) "KeyM")
      end;
  try match goal with m : EnumVariant.TalkMode |- _ => destruct m end;
  try match goal with m : EnumVariant.TalkMode |- _ => destruct m end;
  destruct st; try destruct mu;
  try match goal with env : Env |- _ => enum_env_cases env end.

Section EnumInvariants.
Import EnumVariant.

(** A property kept by every handler holds after every sequence of events. *)
Lemma steps_invariant (P : Session -> Prop) :
  (forall s ev, P s -> P (step s ev)) ->
  forall evs s, P s -> P (steps s evs).
Proof.
  intros Hstep evs. induction evs as [| ev evs IH]; intros s Hs.
  - exact Hs.
  - cbn [steps fold_left]. apply IH. apply Hstep. exact Hs.
Qed.

Lemma step_keeps_isUserSpeaking_false (s : Session) (ev : Event) :
  isUserSpeaking s = false -> isUserSpeaking (step s ev) = false.
Proof. intros H. enum_step_cases s ev; cbn in *; auto. Qed.

(** The cell [isUserSpeaking] is dead: whatever events arrive after the
    mount, in whatever order and with whatever outcomes of the awaited
    calls, it is false. *)
Theorem isUserSpeaking_never_true (evs : list Event) :
  isUserSpeaking (steps initial evs) = false.
Proof.
  apply (steps_invariant (fun s => isUserSpeaking s = false)).
  - exact step_keeps_isUserSpeaking_false.
  - reflexivity.
Qed.

Lemma step_keeps_error_message (s : Session) (ev : Event) :
  (status s = Error -> JS.truthy (error s) = true) ->
  status (step s ev) = Error -> JS.truthy (error (step s ev)) = true.
Proof.
  intros H. enum_step_cases s ev; cbn in *; intros Hst;
    try discriminate Hst; auto.
Qed.

Lemma truthy_message (v : option string) :
  JS.truthy v = true -> exists m, v = Some m /\ m <> "".
Proof.
  destruct v as [m |]; cbn; [| discriminate].
  intros H. exists m. split; [reflexivity|].
  intros ->. discriminate H.
Qed.

(** In every state the component can reach, [status = error] comes with a
    non-empty [error] message, and that message is the status line: the
    fallback text of [getStatusText] is never shown. *)
Theorem error_status_shows_message (evs : list Event) :
  let s := steps initial evs in
  status s = Error ->
  exists m, error s = Some m /\ m <> "" /\ getStatusText s = m.
Proof.
  cbv zeta. intros Hst.
  assert (Htr : JS.truthy (error (steps initial evs)) = true).
  { revert Hst.
    apply (steps_invariant
             (fun s => status s = Error -> JS.truthy (error s) = true)).
    - exact step_keeps_error_message.
    - discriminate. }
  destruct (truthy_message _ Htr) as (m & Hm & Hne).
  exists m. split; [exact Hm|]. split; [exact Hne|].
  unfold getStatusText. rewrite Hst, Htr, Hm. reflexivity.
Qed.

Lemma error_status_shows_message_witness :
  let s := steps initial [Click (env_backend 500 JsonInvalid)] in
  status s = Error
  /\ exists m, error s = Some m /\ m <> "" /\ getStatusText s = m.
Proof.
  cbv zeta. split; [reflexivity|].
  apply (error_status_shows_message [Click (env_backend 500 JsonInvalid)]).
  reflexivity.
Defined.

End EnumInvariants.

Section EnumComposition.
Import EnumVariant.

(** A click on the main button while a call is connecting or connected
    starts nothing: it calls the client's [stopCall] once and sets [status]
    to idle, leaving the flags to the [call_ended] event; that event, when
    it then arrives, gives the state it would have given without the click. *)
Theorem stop_click_then_call_ended (s : Session) (env : Env) :
  status s = Connecting \/ status s = Connected ->
  let s1 := step s (Click env) in
  calls_of s (Click env) = [ClientStopCall]
  /\ status s1 = Idle
  /\ isMuted s1 = isMuted s
  /\ isAgentSpeaking s1 = isAgentSpeaking s
  /\ isPTTActive s1 = isPTTActive s
  /\ step s1 call_ended = step s call_ended
  /\ calls_of s1 call_ended = [].
Proof.
  intros Hst. cbv zeta.
  unfold step, calls_of, run, handler, main_onClick.
  destruct s as [st tm mu ag us ptt er al]. cbn in Hst |- *.
  destruct Hst as [-> | ->]; cbn; repeat split.
Qed.

Lemma stop_click_then_call_ended_witness :
  (status Runs.in_call = Connecting \/ status Runs.in_call = Connected)
  /\ calls_of Runs.in_call (Click env_ok) = [ClientStopCall]
  /\ status (step Runs.in_call (Click env_ok)) = Idle.
Proof.
  split; [right; reflexivity|].
  split; apply (stop_click_then_call_ended Runs.in_call env_ok);
    right; reflexivity.
Defined.

(** In a connected push-to-talk session the mouse gesture on the main
    button (down, up, and the click the two make) unmutes, mutes, and then
    ends the call: the button's [onClick] is [stopCall] while connected. *)
Theorem ptt_mouse_gesture_ends_call (s : Session) (env : Env) :
  status s = Connected ->
  talkMode s = PushToTalk ->
  let gesture := [MouseDown; MouseUp; Click env] in
  trace s gesture = [ClientUnmute; ClientMute; ClientStopCall]
  /\ status (steps s gesture) = Idle
  /\ isPTTActive (steps s gesture) = false.
Proof.
  intros Hst Htm. cbv zeta.
  destruct s as [st tm mu ag us ptt er al]. cbn in Hst, Htm. subst st tm.
  repeat split.
Qed.

Lemma ptt_mouse_gesture_ends_call_witness :
  let s := steps initial [ClickMode PushToTalk; Click env_ok; call_started] in
  status s = Connected
  /\ talkMode s = PushToTalk
  /\ status (steps s [MouseDown; MouseUp; Click env_ok]) = Idle.
Proof.
  cbv zeta. split; [reflexivity|]. split; [reflexivity|].
  apply (ptt_mouse_gesture_ends_call
           (steps initial [ClickMode PushToTalk; Click env_ok; call_started])
           env_ok); reflexivity.
Defined.

(** In push-to-talk mode the press is guarded by [status] and the release
    is not: out of a call a press does nothing, while every release (mouse
    up, mouse leave, touch end, space key up) calls the client's [mute] and
    clears [isPTTActive], whatever [status] is. *)
Theorem ptt_release_not_guarded (s : Session) (e : KeyboardEvent) :
  talkMode s = PushToTalk ->
  code e = "Space" ->
  (status s <> Connected ->
     effects (handler s MouseDown) = []
     /\ effects (handler s TouchStart) = []
     /\ effects (handler s (KeyDown e)) = [])
  /\ calls_of s MouseUp = [ClientMute]
  /\ calls_of s MouseLeave = [ClientMute]
  /\ calls_of s TouchEnd = [ClientMute]
  /\ calls_of s (KeyUp e) = [PreventDefault; ClientMute]
  /\ isPTTActive (step s MouseUp) = false
  /\ isPTTActive (step s MouseLeave) = false
  /\ isPTTActive (step s TouchEnd) = false
  /\ isPTTActive (step s (KeyUp e)) = false.
Proof.
  intros Htm Hcode.
  unfold step, calls_of, run, handler, main_onPress, main_onRelease,
    handleKeyDown, handleKeyUp, handlePTTStart, handlePTTEnd.
  rewrite Htm, Hcode. cbn.
  split; [| repeat split].
  intros Hst. destruct (status s); try (now elim Hst); repeat split.
Qed.

Lemma ptt_release_not_guarded_witness :
  let s := step initial (ClickMode PushToTalk) in
  talkMode s = PushToTalk
  /\ code (Runs.Space false) = "Space"
  /\ status s <> Connected
  /\ effects (handler s MouseDown) = []
  /\ calls_of s MouseLeave = [ClientMute].
Proof.
  cbv zeta.
  pose proof (ptt_release_not_guarded (step initial (ClickMode PushToTalk))
                (Runs.Space false) eq_refl eq_refl) as (Hpress & _ & Hleave & _).
  split; [reflexivity|]. split; [reflexivity|]. split; [discriminate|].
  split; [apply Hpress; discriminate | exact Hleave].
Defined.

(** Push-to-talk drives the client's mute without ever writing [isMuted]:
    a press and release in a connected push-to-talk session call [unmute]
    then [mute] and leave [isMuted] as it was.  The status line afterwards
    (agent silent) is "Muted" when [isMuted] was true, and "Hold to speak"
    when it was false. *)
Theorem ptt_cycle_keeps_isMuted (s : Session) :
  status s = Connected ->
  talkMode s = PushToTalk ->
  isAgentSpeaking s = false ->
  let held := step s MouseDown in
  let released := step held MouseUp in
  trace s [MouseDown; MouseUp] = [ClientUnmute; ClientMute]
  /\ isMuted held = isMuted s
  /\ isMuted released = isMuted s
  /\ getStatusText held = "Listening..."
  /\ getStatusText released = (if isMuted s then "Muted" else "Hold to speak").
Proof.
  intros Hst Htm Hag. cbv zeta.
  destruct s as [st tm mu ag us ptt er al]. cbn in Hst, Htm, Hag. subst st tm ag.
  destruct mu; repeat split.
Qed.

Lemma ptt_cycle_keeps_isMuted_witness :
  let s := steps initial [ClickMode PushToTalk; Click env_ok; call_started] in
  status s = Connected
  /\ talkMode s = PushToTalk
  /\ isAgentSpeaking s = false
  /\ getStatusText (step (step s MouseDown) MouseUp) = "Hold to speak".
Proof.
  cbv zeta. split; [reflexivity|]. split; [reflexivity|]. split; [reflexivity|].
  apply (ptt_cycle_keeps_isMuted
           (steps initial [ClickMode PushToTalk; Click env_ok; call_started]));
    reflexivity.
Defined.

(** The M key is not a toggle for as long as its listener stays registered.
    The listener [handleKeyDown] of a render [kb] writes no [status] and no
    [talkMode] (the dependencies that would register a new one), and every
    time it runs it makes the same client call and writes the same value,
    the negation of the [isMuted] of [kb]: a second press does not undo the
    first. *)
Theorem m_key_repeats_itself (kb s : Session) (e : KeyboardEvent) :
  status kb = Connected ->
  code e = "KeyM" ->
  let press := handleKeyDown kb e in
  let s1 := run press s in
  let s2 := run press s1 in
  calls (effects press)
    = [PreventDefault; if isMuted kb then ClientUnmute else ClientMute]
  /\ status s1 = status s /\ talkMode s1 = talkMode s
  /\ isMuted s1 = negb (isMuted kb)
  /\ s2 = s1.
Proof.
  intros Hst Hcode. cbv zeta.
  unfold run, handleKeyDown, toggleMute. rewrite Hcode, Hst.
  destruct (isMuted kb); cbn; repeat split.
Qed.

Lemma m_key_repeats_itself_witness :
  status Runs.in_call = Connected
  /\ code Runs.KeyM = "KeyM"
  /\ isMuted (run (handleKeyDown Runs.in_call Runs.KeyM)
               (run (handleKeyDown Runs.in_call Runs.KeyM) Runs.in_call)) = true.
Proof.
  split; [reflexivity|]. split; [reflexivity|].
  pose proof (m_key_repeats_itself Runs.in_call Runs.in_call Runs.KeyM
                eq_refl eq_refl) as (_ & _ & _ & Hm & Hsame).
  cbv zeta in Hm, Hsame. rewrite Hsame. exact Hm.
Defined.

End EnumComposition.

Section EnumPresentation.
Import EnumVariant.

(** The main button shows at most one ring, except when the agent talks
    while push-to-talk is held in a connected session: the purple and the
    green ring are then both present.  That state is reached when the agent
    starts talking during a held press.  The glow behind the avatar has one
    class at a time, purple whenever the agent talks. *)
Theorem rings_overlap_when_agent_talks_over_ptt (v : Session) :
  (if CallStatus_eqb (status v) Connected && isAgentSpeaking v && isPTTActive v
   then rings_shown v = ["ring-4 ring-purple-600/50"; "ring-4 ring-green-500/50"]
   else (List.length (rings_shown v) <= 1)%nat)
  /\ (if CallStatus_eqb (status v) Connected && isAgentSpeaking v
      then glow v = Some "bg-purple-600/20 scale-150 animate-pulse"
      else glow v <> Some "bg-purple-600/20 scale-150 animate-pulse")
  /\ rings_shown (step Runs.holding_ptt agent_start_talking)
     = ["ring-4 ring-purple-600/50"; "ring-4 ring-green-500/50"].
Proof.
  destruct v as [st tm mu ag us ptt er al].
  split; [| split; [| reflexivity]].
  - destruct st, tm, mu, ag, ptt; cbn; auto.
  - destruct st, tm, mu, ag, ptt; cbn; try reflexivity; discriminate.
Qed.

(** The status line is never empty, in any state. *)
Theorem getStatusText_not_empty (v : Session) : getStatusText v <> "".
Proof.
  destruct v as [st tm mu ag us ptt [m |] al];
    destruct st, tm, mu, ag, ptt; cbn; try discriminate.
  all: destruct (String.eqb_spec m ""); cbn; [discriminate | assumption].
Qed.

End EnumPresentation.

Section AudioUpperBound.
Import EnumVariant.

(** The order of the specification of binary64 numbers is asymmetric. *)
Lemma SFcompare_lt_gt (a b : spec_float) :
  SFcompare a b = Some Lt -> SFcompare b a = Some Gt.
Proof.
  destruct a as [sa | sa | | sa ma ea], b as [sb | sb | | sb mb eb];
    cbn; try discriminate;
    try (destruct sa; try destruct sb; cbn; intros H;
         try discriminate H; reflexivity).
  destruct sa, sb; intros H; try discriminate H; try reflexivity;
    rewrite (Z.compare_antisym ea eb);
    pose proof (Pos.compare_cont_antisym ma mb Eq) as A; cbn in A; rewrite <- A;
    destruct (ea ?= eb)%Z; cbn in *; try discriminate H; try reflexivity;
    destruct (Pos.compare_cont Eq ma mb); cbn in *;
    try discriminate H; reflexivity.
Qed.

Lemma float_ltb_asym (x y : float) :
  PrimFloat.ltb x y = true -> PrimFloat.ltb y x = false.
Proof.
  rewrite !FloatAxioms.ltb_spec. unfold SFltb.
  destruct (SFcompare (Prim2SF x) (Prim2SF y)) as [[ | | ] |] eqn:H;
    try discriminate.
  intros _. rewrite (SFcompare_lt_gt _ _ H). reflexivity.
Qed.

Lemma float_ltb_leb (x y : float) :
  PrimFloat.ltb x y = true -> PrimFloat.leb x y = true.
Proof.
  rewrite FloatAxioms.ltb_spec, FloatAxioms.leb_spec. unfold SFltb, SFleb.
  destruct (SFcompare (Prim2SF x) (Prim2SF y)) as [[ | | ] |];
    try discriminate; reflexivity.
Qed.

(** A zero is below 1. *)
Lemma float_zero_lt_1 (x : float) :
  PrimFloat.is_zero x = true -> PrimFloat.ltb x 1%float = true.
Proof.
  unfold PrimFloat.is_zero.
  rewrite FloatAxioms.eqb_spec, FloatAxioms.ltb_spec. unfold SFeqb, SFltb.
  replace (Prim2SF 0%float) with (S754_zero false) by (vm_compute; reflexivity).
  replace (Prim2SF 1%float) with (S754_finite false 4503599627370496 (-52))
    by (vm_compute; reflexivity).
  destruct (Prim2SF x) as [sx | sx | | sx mx ex]; cbn [SFcompare];
    try discriminate; try reflexivity.
  - destruct sx; discriminate.
  - destruct sx; discriminate.
Qed.

(** [Math.min(x, 1)] is never above 1, and is at most 1 unless it is NaN. *)
Lemma Math_min_1 (x : float) :
  PrimFloat.ltb 1%float (JS.Math_min x 1%float) = false
  /\ (PrimFloat.is_nan (JS.Math_min x 1%float) = true
      \/ PrimFloat.leb (JS.Math_min x 1%float) 1%float = true).
Proof.
  unfold JS.Math_min.
  destruct (PrimFloat.is_nan x || PrimFloat.is_nan 1%float) eqn:Hnan;
    [split; [reflexivity | left; reflexivity]|].
  destruct (PrimFloat.ltb x 1%float) eqn:Hlt.
  { split; [apply float_ltb_asym; exact Hlt | right; apply float_ltb_leb; exact Hlt]. }
  destruct (PrimFloat.ltb 1%float x) eqn:Hgt.
  { split; [reflexivity | right; reflexivity]. }
  destruct (PrimFloat.is_zero x && PrimFloat.get_sign x) eqn:Hz.
  - apply andb_prop in Hz. destruct Hz as (Hz & _).
    apply float_zero_lt_1 in Hz. rewrite Hz in Hlt. discriminate Hlt.
  - split; [reflexivity | right; reflexivity].
Qed.

(** For every frame of samples (empty, with infinities, with NaN), the
    level the [audio] handler stores is never above 1: [audioLevel > 1] is
    false, and unless the level is NaN, [audioLevel <= 1] is true. *)
Theorem audio_level_never_above_1 (s : Session) (samples : list float) :
  let level := audioLevel (step s (audio samples)) in
  PrimFloat.ltb 1%float level = false
  /\ (PrimFloat.is_nan level = true \/ PrimFloat.leb level 1%float = true).
Proof.
  cbv zeta.
  change (audioLevel (step s (audio samples))) with (audio_level samples).
  unfold audio_level. apply Math_min_1.
Qed.

End AudioUpperBound.


(** * Further properties of the boolean variant *)

Section BooleanVariantFacts.
Import BooleanVariant.

Ltac bool_env_cases env :=
  destruct env as [agent m [ | code [ | | [tok |] | ]] resolves];
  unfold step, calls_of, run, handler, toggleConversation, registerCall,
    Browser.registerCall, Browser.access_token_of,
    retellWebClient.startCall, RetellWebClient.startCall, registered;
  cbn;
  try (destruct (JS.response_ok code); cbn);
  try (destruct (String.eqb tok ""); cbn);
  try (destruct resolves; cbn).

(** Where a click that starts a call leaves the boolean variant, for every
    outcome of the registration and the SDK.  [isCalling] becomes true
    exactly when a 2xx registration carried a non-empty token and the
    client's [startCall] resolved; a 2xx registration with a missing or
    empty token ends silently; every other outcome sets the connection
    message.  The microphone is never probed, the registration is always
    requested, and the client's [startCall] is called exactly when the
    token is non-empty. *)
Theorem toggleConversation_start_outcome (env : Env) (b : Session) :
  isCalling b = false ->
  let token_ok :=
    match registered env with Some tok => JS.truthy tok | None => false end in
  let silent :=
    match registered env with Some tok => negb (JS.truthy tok) | None => false end in
  step b (Click env) =
    {| isCalling := token_ok && sdk_startCall_resolves env;
       isAgentSpeaking := isAgentSpeaking b;
       error := if (token_ok && sdk_startCall_resolves env) || silent then None
                else Some "Failed to connect. Check microphone permissions." |}
  /\ calls_of b (Click env) =
       PostCreateWebCall (AGENT_ID env)
       :: match registered env with
          | Some tok => if JS.truthy tok then [ClientStartCall tok false] else []
          | None => []
          end.
Proof.
  intros Hb. cbv zeta. destruct b as [c ag er]. cbn in Hb. subst c.
  bool_env_cases env; split; reflexivity.
Qed.

Lemma toggleConversation_start_outcome_witness :
  isCalling initial = false
  /\ calls_of initial (Click env_ok)
     = [PostCreateWebCall "agent_1"; ClientStartCall (Some "tok123") false].
Proof.
  split; [reflexivity|].
  apply (toggleConversation_start_outcome env_ok initial). reflexivity.
Defined.

(** A click while calling only asks the client to stop: the state is left
    as it is, so a second click asks again, and it is the [call_ended]
    event that clears [isCalling] and [isAgentSpeaking]. *)
Theorem toggleConversation_stop_waits_for_event (env env' : Env) (b : Session) :
  isCalling b = true ->
  step b (Click env) = b
  /\ trace b [Click env; Click env'] = [ClientStopCall; ClientStopCall]
  /\ step (step b (Click env)) call_ended =
       {| isCalling := false; isAgentSpeaking := false; error := error b |}.
Proof.
  intros Hb. destruct b as [c ag er]. cbn in Hb. subst c.
  repeat split.
Qed.

Lemma toggleConversation_stop_waits_for_event_witness :
  let b := step initial (Click env_ok) in
  isCalling b = true
  /\ step b (Click env_ok) = b.
Proof.
  cbv zeta. split; [reflexivity|].
  apply (toggleConversation_stop_waits_for_event env_ok env_ok
           (step initial (Click env_ok))). reflexivity.
Defined.

(** An error message outlives the call: the [call_ended] and agent events
    do not write [error], so after an SDK error the status line keeps
    showing the message, until [call_started] or the next click on the main
    button clears it. *)
Theorem error_message_outlives_call (b : Session) (evs : list Event) :
  Forall (fun ev => ev = call_ended \/ ev = agent_start_talking
                    \/ ev = agent_stop_talking) evs ->
  let b' := steps (step b sdk_error) evs in
  error b' = Some "Connection error. Please try again."
  /\ getStatusText b' = "Connection error. Please try again."
  /\ error (step b' call_started) = None
  /\ (forall env, exists rest,
        setters (effects (handler b' (Click env))) = setError None :: rest).
Proof.
  intros Hevs. cbv zeta.
  assert (H : error (steps (step b sdk_error) evs)
              = Some "Connection error. Please try again."
              /\ isCalling (steps (step b sdk_error) evs) = false).
  { assert (H0 : error (step b sdk_error)
                 = Some "Connection error. Please try again."
                 /\ isCalling (step b sdk_error) = false) by (split; reflexivity).
    revert H0. generalize (step b sdk_error). clear b.
    induction Hevs as [| ev evs Hev _ IH]; intros b H0; [exact H0|].
    cbn [steps fold_left]. apply IH. destruct H0 as (He & Hc).
    destruct Hev as [-> | [-> | ->]]; cbn; auto. }
  destruct H as (He & Hc).
  split; [exact He|].
  split; [unfold getStatusText; rewrite He; reflexivity|].
  split; [reflexivity|].
  intros env. unfold handler, toggleConversation. rewrite Hc.
  bool_env_cases env; eexists; reflexivity.
Qed.

Lemma error_message_outlives_call_witness :
  Forall (fun ev => ev = call_ended \/ ev = agent_start_talking
                    \/ ev = agent_stop_talking) [call_ended]
  /\ getStatusText (steps (step (step initial (Click env_ok)) sdk_error) [call_ended])
     = "Connection error. Please try again.".
Proof.
  assert (H : Forall (fun ev => ev = call_ended \/ ev = agent_start_talking
                                \/ ev = agent_stop_talking) [call_ended])
    by (constructor; [left; reflexivity | constructor]).
  split; [exact H|].
  apply (error_message_outlives_call (step initial (Click env_ok)) H).
Defined.

End BooleanVariantFacts.


(** * Further properties of the multi-flag variant *)

Section MultiFlagVariantFacts.
Import MultiFlagVariant.

Ltac multi_env_cases env :=
  destruct env as [agent [ | name message | ] [ | code [ | | [tok |] | ]] resolves];
  unfold step, calls_of, run, handler, main_onClick, main_disabled,
    toggleConversation, checkMicrophonePermission, registerCall,
    Browser.registerCall, Browser.access_token_of, Browser.getUserMedia,
    retellWebClient.startCall, RetellWebClient.startCall, registered,
    mic_granted;
  cbn;
  try (destruct (JS.response_ok code); cbn);
  try (destruct (String.eqb tok ""); cbn);
  try (destruct resolves; cbn).

(** The final state and the calls of a start, by cases on the outcomes. *)
Lemma multi_start_cases (env : Env) (m : Session) :
  ready m ->
  let token_ok :=
    match registered env with Some tok => JS.truthy tok | None => false end in
  let silent :=
    match registered env with Some tok => negb (JS.truthy tok) | None => false end in
  let up := mic_granted env && token_ok && sdk_startCall_resolves env in
  step m (Click env) =
    {| isCalling := up;
       hasError := negb (mic_granted env && (up || silent));
       isTransitioning := mic_granted env && (up || silent);
       isCheckingMic := false;
       isMuted := isMuted m;
       errorDetail :=
         match mic env with
         | MicGranted => ""
         | MicRejected name message => name ++ ": " ++ message
         | MicUnavailable => "mediaDevices not supported"
         end |}
  /\ calls_of m (Click env) =
       match mic env with
       | MicUnavailable => []
       | MicRejected _ _ => [GetUserMedia]
       | MicGranted =>
           [GetUserMedia; StopTracks; PostCreateWebCall (AGENT_ID env)]
           ++ match registered env with
              | Some tok => if JS.truthy tok then [ClientStartCall tok false] else []
              | None => []
              end
       end.
Proof.
  intros (Hc & Ht & Hk). cbv zeta.
  destruct m as [c he tr ck mu ed]. cbn in Hc, Ht, Hk. subst c tr ck.
  multi_env_cases env; split; reflexivity.
Qed.

(** Where a click that starts a call leaves the multi-flag variant, for
    every outcome of the microphone probe, the registration and the SDK.
    [isCheckingMic] is always released.  [isCalling] becomes true exactly
    on full success.  [hasError] is raised by a failed probe, a failed
    registration and a rejected [startCall], and by nothing else.
    [isTransitioning] is left true on success and when the token is missing
    or empty.  [errorDetail] is the probe's error, and empty once the probe
    succeeded. *)
Theorem multi_start_outcome (env : Env) (m : Session) :
  ready m ->
  let token_ok :=
    match registered env with Some tok => JS.truthy tok | None => false end in
  let silent :=
    match registered env with Some tok => negb (JS.truthy tok) | None => false end in
  let up := mic_granted env && token_ok && sdk_startCall_resolves env in
  step m (Click env) =
    {| isCalling := up;
       hasError := negb (mic_granted env && (up || silent));
       isTransitioning := mic_granted env && (up || silent);
       isCheckingMic := false;
       isMuted := isMuted m;
       errorDetail :=
         match mic env with
         | MicGranted => ""
         | MicRejected name message => name ++ ": " ++ message
         | MicUnavailable => "mediaDevices not supported"
         end |}
  /\ calls_of m (Click env) =
       match mic env with
       | MicUnavailable => []
       | MicRejected _ _ => [GetUserMedia]
       | MicGranted =>
           [GetUserMedia; StopTracks; PostCreateWebCall (AGENT_ID env)]
           ++ match registered env with
              | Some tok => if JS.truthy tok then [ClientStartCall tok false] else []
              | None => []
              end
       end.
Proof.
  intros (Hc & Ht & Hk). cbv zeta.
  destruct m as [c he tr ck mu ed]. cbn in Hc, Ht, Hk. subst c tr ck.
  multi_env_cases env; split; reflexivity.
Qed.

Lemma multi_start_outcome_witness :
  ready initial
  /\ isCalling (step initial (Click env_ok)) = true
  /\ isTransitioning (step initial (Click env_ok)) = true.
Proof.
  assert (H : ready initial) by (repeat split).
  split; [exact H|].
  destruct (multi_start_outcome env_ok H) as (Hstate & _).
  cbv zeta in Hstate. rewrite Hstate. split; reflexivity.
Defined.

(** Every failed start reads "Microphone permission denied", also when the
    microphone was granted and it was the registration or the SDK that
    failed; [errorDetail] is then empty. *)
Theorem multi_failure_blames_microphone (env : Env) (m : Session) :
  ready m ->
  mic env = MicGranted ->
  (registered env = None
   \/ (exists tok, registered env = Some tok /\ JS.truthy tok = true
                   /\ sdk_startCall_resolves env = false)) ->
  let m' := step m (Click env) in
  hasError m' = true
  /\ getStatusText m' = "Microphone permission denied"
  /\ errorDetail m' = ""
  /\ main_disabled m' = false.
Proof.
  intros (Hc & Ht & Hk) Hmic Hfail. cbv zeta.
  destruct m as [c he tr ck mu ed]. cbn in Hc, Ht, Hk. subst c tr ck.
  assert (Hcases :
    forall e, mic e = MicGranted ->
      (registered e = None
       \/ (exists tok, registered e = Some tok /\ JS.truthy tok = true
                       /\ sdk_startCall_resolves e = false)) ->
      mic_granted e
      && ((mic_granted e
           && match registered e with Some tok => JS.truthy tok | None => false end
           && sdk_startCall_resolves e)
          || match registered e with
             | Some tok => negb (JS.truthy tok)
             | None => false
             end) = false).
  { intros e He [Hnone | (tok & Hreg & Htr & Hres)].
    - rewrite Hnone.
      destruct (mic_granted e), (sdk_startCall_resolves e); reflexivity.
    - rewrite Hreg, Htr, Hres. destruct (mic_granted e); reflexivity. }
  specialize (Hcases env Hmic Hfail).
  destruct (@multi_start_cases env
              {| isCalling := false; hasError := he; isTransitioning := false;
                 isCheckingMic := false; isMuted := mu; errorDetail := ed |})
    as (Hstate & _); [repeat split|].
  cbv zeta in Hstate. rewrite Hstate, Hcases, Hmic.
  repeat split.
Qed.

Lemma multi_failure_blames_microphone_witness :
  ready initial
  /\ mic (env_backend 500 JsonInvalid) = MicGranted
  /\ registered (env_backend 500 JsonInvalid) = None
  /\ getStatusText (step initial (Click (env_backend 500 JsonInvalid)))
     = "Microphone permission denied".
Proof.
  assert (H : ready initial) by (repeat split).
  split; [exact H|]. split; [reflexivity|]. split; [reflexivity|].
  apply (multi_failure_blames_microphone (env_backend 500 JsonInvalid) H
           eq_refl (or_introl eq_refl)).
Defined.

(** A whole call in the multi-flag variant.  A successful start leaves the
    main button disabled ("Connecting...") until [call_started] arrives;
    the call then reads "Listening..." and the button is enabled; a click
    asks the client to stop and disables the button again, so a further
    click is not dispatched; [call_ended] brings the component back to the
    ready state, unmuted and without error. *)
Theorem multi_call_lifecycle (env env' env'' : Env) (m : Session)
    (tok : option string) :
  ready m ->
  mic env = MicGranted ->
  registered env = Some tok ->
  JS.truthy tok = true ->
  sdk_startCall_resolves env = true ->
  let m1 := step m (Click env) in
  let m2 := step m1 call_started in
  let m3 := step m2 (Click env') in
  let m4 := step m3 call_ended in
  (main_disabled m1 = true /\ getStatusText m1 = "Connecting...")
  /\ (isCalling m2 = true /\ main_disabled m2 = false
      /\ getStatusText m2 = "Listening...")
  /\ (calls_of m2 (Click env') = [ClientStopCall]
      /\ main_disabled m3 = true
      /\ effects (handler m3 (Click env'')) = [])
  /\ (ready m4 /\ isMuted m4 = false /\ hasError m4 = false
      /\ getStatusText m4 = "Tap to summon Ozzy").
Proof.
  intros Hready Hmic Hreg Htok Hres. cbv zeta.
  destruct (@multi_start_cases env m Hready) as (Hstate & _).
  cbv zeta in Hstate.
  unfold mic_granted in Hstate. rewrite Hmic, Hreg, Htok, Hres in Hstate.
  cbn in Hstate. rewrite Hstate.
  repeat split.
Qed.

Lemma multi_call_lifecycle_witness :
  ready initial
  /\ mic env_ok = MicGranted
  /\ registered env_ok = Some (Some "tok123")
  /\ JS.truthy (Some "tok123") = true
  /\ sdk_startCall_resolves env_ok = true
  /\ ready (steps initial [Click env_ok; call_started; Click env_ok; call_ended]).
Proof.
  assert (H : ready initial) by (repeat split).
  split; [exact H|]. split; [reflexivity|]. split; [reflexivity|].
  split; [reflexivity|]. split; [reflexivity|].
  apply (multi_call_lifecycle env_ok env_ok env_ok (tok := Some "tok123") H);
    reflexivity.
Defined.

End MultiFlagVariantFacts.
